(** * Pegasus monitoring: the [Workflow] class of pegasus-monitord

    A shallow embedding of
    [lib/pegasus/python/Pegasus/monitoring/workflow.py]: the job index,
    the submit-sequence counter, the checkpoint and recovery files, the
    event sink and the sub-workflow resolver, with the properties the
    design document states about them. *)

From Stdlib Require Import ZArith String Ascii List Sorted Lia DecimalString DecimalZ DecimalPos.
From stdpp Require Import base option gmap strings list fin_maps.

Local Open Scope string_scope.
Local Open Scope Z_scope.

Set Warnings "-clear-no-such-hyp".

(** ** Python string primitives used by the module *)

Module PyStr.

(** The characters [str.strip()] removes: space, \t, \n, \v, \f, \r. *)
Definition is_space (c : ascii) : bool :=
  let n := nat_of_ascii c in
  (Nat.eqb n 32 || (Nat.leb 9 n && Nat.leb n 13))%bool.

Definition is_digit (c : ascii) : bool :=
  let n := nat_of_ascii c in (Nat.leb 48 n && Nat.leb n 57)%bool.

Fixpoint all_chars (p : ascii -> bool) (s : string) : bool :=
  match s with
  | EmptyString => true
  | String c s' => (p c && all_chars p s')%bool
  end.

Definition no_space (s : string) : bool :=
  all_chars (fun c => negb (is_space c)) s.

Fixpoint lstrip (s : string) : string :=
  match s with
  | EmptyString => EmptyString
  | String c s' => if is_space c then lstrip s' else s
  end.

Fixpoint rstrip (s : string) : string :=
  match s with
  | EmptyString => EmptyString
  | String c s' =>
      match rstrip s' with
      | EmptyString => if is_space c then EmptyString else String c EmptyString
      | r => String c r
      end
  end.

(** [s.strip()] *)
Definition strip (s : string) : string := rstrip (lstrip s).

(** [a, b = s.split(sep, 1)]: the text before the first separator and the
    text after it; [None] when there is no separator, where the unpacking
    into two names raises ValueError. *)
Fixpoint split_once (sep : ascii) (s : string) : option (string * string) :=
  match s with
  | EmptyString => None
  | String c s' =>
      if Ascii.eqb c sep then Some (EmptyString, s')
      else match split_once sep s' with
           | Some (a, b) => Some (String c a, b)
           | None => None
           end
  end.

(** ["%d" % z] and [str(z)] for an integer. *)
Definition str_of_Z (z : Z) : string := NilZero.string_of_int (Z.to_int z).

Definition digits_value (s : string) : option Z :=
  match s with
  | EmptyString => None
  | _ => option_map Z.of_uint (NilEmpty.uint_of_string s)
  end.

(** [int(s)] in base ten: surrounding white space is dropped, one sign is
    allowed, at least one digit is required; [None] is ValueError. *)
Definition py_int (s : string) : option Z :=
  match strip s with
  | EmptyString => None
  | String c d =>
      if Ascii.eqb c "-" then option_map Z.opp (digits_value d)
      else if Ascii.eqb c "+" then digits_value d
      else digits_value (String c d)
  end.

(** [s.startswith(p)] *)
Fixpoint startswith (p s : string) : bool :=
  match p, s with
  | EmptyString, _ => true
  | String a p', String b s' => (Ascii.eqb a b && startswith p' s')%bool
  | String _ _, EmptyString => false
  end.

Fixpoint drop (n : nat) (s : string) : string :=
  match n, s with
  | O, _ => s
  | S n', String _ s' => drop n' s'
  | S _, EmptyString => EmptyString
  end.

(** [s.find(p) >= 0] *)
Fixpoint contains (p s : string) : bool :=
  (startswith p s ||
   match s with
   | EmptyString => false
   | String _ s' => contains p s'
   end)%bool.

(** [s.replace(p, r, 1)]: the first occurrence only. *)
Fixpoint replace_first (p r s : string) : string :=
  if startswith p s then r ++ drop (String.length p) s
  else match s with
       | EmptyString => EmptyString
       | String c s' => String c (replace_first p r s')
       end.

(** [s[:n]] for a non-negative [n] *)
Fixpoint take (n : nat) (s : string) : string :=
  match n, s with
  | O, _ => EmptyString
  | S n', String c s' => String c (take n' s')
  | S _, EmptyString => EmptyString
  end.

(** [len(s)] *)
Definition len (s : string) : Z := Z.of_nat (String.length s).

Fixpoint zeros (n : nat) : string :=
  match n with O => EmptyString | S n' => String "0" (zeros n') end.

(** ["%03d" % z]: the sign first, then zeros up to a width of three. *)
Definition fmt_03d (z : Z) : string :=
  let body := str_of_Z (Z.abs z) in
  if z <? 0
  then String "-" (zeros (2 - String.length body) ++ body)
  else zeros (3 - String.length body) ++ body.

End PyStr.

(** The line terminator. *)
Definition NL : string := String "010"%char EmptyString.

(** ** POSIX path functions ([os.path]) used by the module *)

Module PosixPath.

Definition is_slash (c : ascii) : bool := Ascii.eqb c "/".

(** [p.split('/')] *)
Fixpoint split_slash (s : string) : list string :=
  match s with
  | EmptyString => [EmptyString]
  | String c s' =>
      let r := split_slash s' in
      if is_slash c then EmptyString :: r
      else match r with
           | h :: t => String c h :: t
           | [] => [String c EmptyString]
           end
  end.

(** ['/'.join(comps)] *)
Fixpoint join_slash (comps : list string) : string :=
  match comps with
  | [] => EmptyString
  | [c] => c
  | c :: rest => c ++ "/" ++ join_slash rest
  end.

(** The loop of [normpath]: [new_comps] is kept with its last element
    first. *)
Definition normpath_step (initial_slashes : nat) (new_comps : list string)
    (comp : string) : list string :=
  if bool_decide (comp = "") || bool_decide (comp = ".") then new_comps
  else if negb (bool_decide (comp = ".."))
          || (Nat.eqb initial_slashes 0 && bool_decide (new_comps = []))
          || match new_comps with
             | last :: _ => bool_decide (last = "..")
             | [] => false
             end
       then comp :: new_comps
       else match new_comps with
            | _ :: popped => popped
            | [] => new_comps
            end.

(** [os.path.normpath] *)
Definition normpath (path : string) : string :=
  if bool_decide (path = "") then "."
  else
    let initial_slashes :=
      if PyStr.startswith "/" path then
        if PyStr.startswith "//" path && negb (PyStr.startswith "///" path)
        then 2%nat else 1%nat
      else 0%nat in
    let comps := fold_left (normpath_step initial_slashes) (split_slash path) [] in
    let body := join_slash (rev comps) in
    let res := String.concat "" (repeat "/" initial_slashes) ++ body in
    if bool_decide (res = "") then "." else res.

(** [head, tail = p[:i], p[i:]] with [i = p.rfind('/') + 1]. *)
Fixpoint rsplit (s : string) : string * string :=
  match s with
  | EmptyString => (EmptyString, EmptyString)
  | String c s' =>
      let (h, t) := rsplit s' in
      match h with
      | String _ _ => (String c h, t)
      | EmptyString =>
          if is_slash c then (String c EmptyString, s')
          else (EmptyString, String c s')
      end
  end.

Fixpoint rstrip_slash (s : string) : string :=
  match s with
  | EmptyString => EmptyString
  | String c s' =>
      match rstrip_slash s' with
      | EmptyString => if is_slash c then EmptyString else String c EmptyString
      | r => String c r
      end
  end.

(** [os.path.dirname] *)
Definition dirname (p : string) : string :=
  let head := fst (rsplit p) in
  if negb (bool_decide (head = "")) && negb (PyStr.all_chars is_slash head)
  then rstrip_slash head else head.

(** [os.path.basename] *)
Definition basename (p : string) : string := snd (rsplit p).

Fixpoint endswith_slash (s : string) : bool :=
  match s with
  | EmptyString => false
  | String c EmptyString => is_slash c
  | String _ s' => endswith_slash s'
  end.

(** [os.path.join(a, b)] *)
Definition join (a b : string) : string :=
  if PyStr.startswith "/" b then b
  else if bool_decide (a = "") || endswith_slash a then a ++ b
  else a ++ "/" ++ b.

End PosixPath.

(** ** Values, log records, files *)

(** The values stored in an event's keyword dictionary. *)
Inductive pyval : Type :=
  | PNone
  | PInt (z : Z)
  | PStr (s : string).

#[global] Instance pyval_eq_dec : EqDecision pyval.
Proof. solve_decision. Defined.

(** [str(v)] *)
Definition py_str (v : pyval) : string :=
  match v with
  | PNone => "None"
  | PInt z => PyStr.str_of_Z z
  | PStr s => s
  end.

(** ["%s" % x] for an attribute that is a string or [None]. *)
Definition str_opt (o : option string) : string :=
  match o with Some s => s | None => "None" end.

(** [x or "unknown"] for an attribute that is a string or [None]: the
    empty string is false as well. *)
Definition or_unknown (o : option string) : string :=
  match o with
  | Some (String c s) => String c s
  | _ => "unknown"
  end.

Inductive level : Type := DEBUG | INFO | WARNING | ERROR | CRITICAL.

#[global] Instance level_eq_dec : EqDecision level.
Proof. solve_decision. Defined.

(** One call of the module's [logger]: the level, the format string and
    the arguments, each already rendered with [str]. *)
Record logrec : Type := Log { lvl : level; fmt : string; args : list string }.

#[global] Instance logrec_eq_dec : EqDecision logrec.
Proof. solve_decision. Defined.

(** The part of the file system the module touches: text files as their
    lines (each with its newline), the paths that cannot be opened for
    writing, and the directories that exist. *)
Record FS : Type := mkFS {
  fs_files : gmap string (list string);
  fs_denied : gset string;
  fs_dirs : gset string
}.

Definition fs_write (path : string) (content : list string) (fs : FS) : FS :=
  mkFS (<[path := content]> (fs_files fs)) (fs_denied fs) (fs_dirs fs).

(** [os.path.isdir] *)
Definition isdir (fs : FS) (path : string) : bool :=
  bool_decide (path ∈ fs_dirs fs).

(** Constants of the module. *)
Definition MONITORD_STATE_FILE : string := "monitord.info".
Definition MONITORD_RECOVER_FILE : string := "monitord.recover".
Definition MAX_OUTPUT_LENGTH : Z := 2 ^ 16 - 1.

(** ** Job instances *)

Module Job.

(** The attributes of a [Job] object that [workflow.py] reads or writes. *)
Record t : Type := mk {
  _wf_uuid : option string;
  _exec_job_id : string;
  _job_submit_seq : Z;
  _job_state : option string;
  _job_state_seq : Z;
  _job_state_timestamp : option Z;
  _sched_id : option string;
  _job_output_counter : Z;
  _site_name : option string;
  _remote_user : option string;
  _remote_working_dir : option string;
  _cluster_start_time : option string;
  _cluster_duration : option string;
  _main_job_start : option Z;
  _main_job_done : option Z;
  _input_file : option string;
  _output_file : option string;
  _error_file : option string;
  _kickstart_parsed : bool;
  _stdout_text : option string;
  _stderr_text : option string;
  _main_job_multiplier_factor : option Z;
  _main_job_exitcode : option Z;
  _job_dagman_out : option string
}.

(** Modelled from the spec: the class [Job] ([Pegasus.monitoring.job]) is
    not part of the sources at hand.  A Job Instance is identified by its
    job name and submit-sequence number and does not exist in any state
    before its first signal: [Job(wf_uuid, jobid, seq)] records the three
    arguments and leaves every other attribute empty ([None], 0, [False]). *)
Definition new (wf_uuid : option string) (jobid : string) (seq : Z) : t :=
  mk wf_uuid jobid seq None 0 None None 0 None None None None None None None
     None None None false None None None None None.

Definition set_state (st : string) (ts : Z) (j : t) : t :=
  mk (_wf_uuid j) (_exec_job_id j) (_job_submit_seq j) (Some st)
     (_job_state_seq j) (Some ts) (_sched_id j) (_job_output_counter j)
     (_site_name j) (_remote_user j) (_remote_working_dir j)
     (_cluster_start_time j) (_cluster_duration j) (_main_job_start j)
     (_main_job_done j) (_input_file j) (_output_file j) (_error_file j)
     (_kickstart_parsed j) (_stdout_text j) (_stderr_text j)
     (_main_job_multiplier_factor j) (_main_job_exitcode j) (_job_dagman_out j).

Definition set_sched_id (sid : option string) (j : t) : t :=
  mk (_wf_uuid j) (_exec_job_id j) (_job_submit_seq j) (_job_state j)
     (_job_state_seq j) (_job_state_timestamp j) sid (_job_output_counter j)
     (_site_name j) (_remote_user j) (_remote_working_dir j)
     (_cluster_start_time j) (_cluster_duration j) (_main_job_start j)
     (_main_job_done j) (_input_file j) (_output_file j) (_error_file j)
     (_kickstart_parsed j) (_stdout_text j) (_stderr_text j)
     (_main_job_multiplier_factor j) (_main_job_exitcode j) (_job_dagman_out j).

Definition set_output_counter (c : Z) (j : t) : t :=
  mk (_wf_uuid j) (_exec_job_id j) (_job_submit_seq j) (_job_state j)
     (_job_state_seq j) (_job_state_timestamp j) (_sched_id j) c
     (_site_name j) (_remote_user j) (_remote_working_dir j)
     (_cluster_start_time j) (_cluster_duration j) (_main_job_start j)
     (_main_job_done j) (_input_file j) (_output_file j) (_error_file j)
     (_kickstart_parsed j) (_stdout_text j) (_stderr_text j)
     (_main_job_multiplier_factor j) (_main_job_exitcode j) (_job_dagman_out j).

(** [my_job._stdout_text = None; my_job._stderr_text = None] *)
Definition clear_texts (j : t) : t :=
  mk (_wf_uuid j) (_exec_job_id j) (_job_submit_seq j) (_job_state j)
     (_job_state_seq j) (_job_state_timestamp j) (_sched_id j)
     (_job_output_counter j)
     (_site_name j) (_remote_user j) (_remote_working_dir j)
     (_cluster_start_time j) (_cluster_duration j) (_main_job_start j)
     (_main_job_done j) (_input_file j) (_output_file j) (_error_file j)
     (_kickstart_parsed j) None None
     (_main_job_multiplier_factor j) (_main_job_exitcode j) (_job_dagman_out j).

End Job.

(** The static information of a job name, [_job_info[jobid]]:
    [sub_file, pre_exec, pre_args, post_exec, post_args, is_subdag,
    subdag_dag, subdag_dir]. *)
Record JobInfo : Type := mkJobInfo {
  sub_file : option string;
  pre_exec : option string;
  pre_args : option string;
  post_exec : option string;
  post_args : option string;
  is_subdag : bool;
  subdag_dag : option string;
  subdag_dir : option string
}.

(** ** The workflow object *)

(** An event's keyword dictionary. *)
Abbreviation kwargs := (gmap string pyval).

(** The sink is a collaborator: all that matters here is whether a call of
    [send] returns or raises, which may depend on the calls made before. *)
Definition Sink : Type := list (string * kwargs) -> string -> kwargs -> bool.

(** A call into the notification manager: the kind of notification and the
    state it is about. *)
Record notif : Type := Notif { notif_kind : string; notif_state : string }.

Record Workflow : Type := mkWorkflow {
  _run_dir : string;
  _out_file : string;
  _output_dir : option string;
  _sink : option Sink;
  _database_disabled : bool;
  _enable_notifications : bool;
  _replay_mode : bool;
  _notifications_manager : bool;      (* whether a manager was given *)
  _store_stdout_stderr : bool;
  _wf_uuid : option string;
  _dax_label : option string;
  _dax_index : option string;
  _dag_file_name : option string;
  _original_submit_dir : option string;
  _user : option string;
  _jobs_map : gmap string Z;
  _jobs : gmap (string * Z) Job.t;
  _job_submit_seq : Z;
  _JSDB : list string;                (* lines written to jobstate.log *)
  _job_counters : gmap string Z;
  _job_info : gmap string JobInfo;
  _line : Z;
  _last_processed_line : Z;
  _previous_processed_line : Z;
  _restart_count : Z;
  _dagman_condor_id : option string;
  _current_timestamp : Z;
  _dagman_exit_code : option Z;
  _walltime : gmap string string;
  _job_site : gmap string string;
  _monitord_exit_code : Z;
  (* what the object has done to its collaborators *)
  sink_calls : list (string * kwargs);
  notif_calls : list notif;
  log : list logrec
}.

(** Attribute assignment, [self.<attribute> = v]. *)

Definition set_database_disabled (v : bool) (w : Workflow) : Workflow :=
  mkWorkflow (_run_dir w) (_out_file w) (_output_dir w) (_sink w) v
    (_enable_notifications w) (_replay_mode w) (_notifications_manager w)
    (_store_stdout_stderr w) (_wf_uuid w) (_dax_label w) (_dax_index w)
    (_dag_file_name w) (_original_submit_dir w) (_user w) (_jobs_map w)
    (_jobs w) (_job_submit_seq w) (_JSDB w) (_job_counters w) (_job_info w)
    (_line w) (_last_processed_line w) (_previous_processed_line w)
    (_restart_count w) (_dagman_condor_id w) (_current_timestamp w)
    (_dagman_exit_code w) (_walltime w) (_job_site w)
    (_monitord_exit_code w) (sink_calls w) (notif_calls w) (log w).

Definition set_jobs_map (v : gmap string Z) (w : Workflow) : Workflow :=
  mkWorkflow (_run_dir w) (_out_file w) (_output_dir w) (_sink w)
    (_database_disabled w) (_enable_notifications w) (_replay_mode w)
    (_notifications_manager w) (_store_stdout_stderr w) (_wf_uuid w)
    (_dax_label w) (_dax_index w) (_dag_file_name w)
    (_original_submit_dir w) (_user w) v (_jobs w) (_job_submit_seq w)
    (_JSDB w) (_job_counters w) (_job_info w) (_line w)
    (_last_processed_line w) (_previous_processed_line w) (_restart_count w)
    (_dagman_condor_id w) (_current_timestamp w) (_dagman_exit_code w)
    (_walltime w) (_job_site w) (_monitord_exit_code w) (sink_calls w)
    (notif_calls w) (log w).

Definition set_jobs (v : gmap (string * Z) Job.t) (w : Workflow) : Workflow :=
  mkWorkflow (_run_dir w) (_out_file w) (_output_dir w) (_sink w)
    (_database_disabled w) (_enable_notifications w) (_replay_mode w)
    (_notifications_manager w) (_store_stdout_stderr w) (_wf_uuid w)
    (_dax_label w) (_dax_index w) (_dag_file_name w)
    (_original_submit_dir w) (_user w) (_jobs_map w) v (_job_submit_seq w)
    (_JSDB w) (_job_counters w) (_job_info w) (_line w)
    (_last_processed_line w) (_previous_processed_line w) (_restart_count w)
    (_dagman_condor_id w) (_current_timestamp w) (_dagman_exit_code w)
    (_walltime w) (_job_site w) (_monitord_exit_code w) (sink_calls w)
    (notif_calls w) (log w).

Definition set_job_submit_seq (v : Z) (w : Workflow) : Workflow :=
  mkWorkflow (_run_dir w) (_out_file w) (_output_dir w) (_sink w)
    (_database_disabled w) (_enable_notifications w) (_replay_mode w)
    (_notifications_manager w) (_store_stdout_stderr w) (_wf_uuid w)
    (_dax_label w) (_dax_index w) (_dag_file_name w)
    (_original_submit_dir w) (_user w) (_jobs_map w) (_jobs w) v (_JSDB w)
    (_job_counters w) (_job_info w) (_line w) (_last_processed_line w)
    (_previous_processed_line w) (_restart_count w) (_dagman_condor_id w)
    (_current_timestamp w) (_dagman_exit_code w) (_walltime w) (_job_site w)
    (_monitord_exit_code w) (sink_calls w) (notif_calls w) (log w).

Definition set_JSDB (v : list string) (w : Workflow) : Workflow :=
  mkWorkflow (_run_dir w) (_out_file w) (_output_dir w) (_sink w)
    (_database_disabled w) (_enable_notifications w) (_replay_mode w)
    (_notifications_manager w) (_store_stdout_stderr w) (_wf_uuid w)
    (_dax_label w) (_dax_index w) (_dag_file_name w)
    (_original_submit_dir w) (_user w) (_jobs_map w) (_jobs w)
    (_job_submit_seq w) v (_job_counters w) (_job_info w) (_line w)
    (_last_processed_line w) (_previous_processed_line w) (_restart_count w)
    (_dagman_condor_id w) (_current_timestamp w) (_dagman_exit_code w)
    (_walltime w) (_job_site w) (_monitord_exit_code w) (sink_calls w)
    (notif_calls w) (log w).

Definition set_job_counters (v : gmap string Z) (w : Workflow) : Workflow :=
  mkWorkflow (_run_dir w) (_out_file w) (_output_dir w) (_sink w)
    (_database_disabled w) (_enable_notifications w) (_replay_mode w)
    (_notifications_manager w) (_store_stdout_stderr w) (_wf_uuid w)
    (_dax_label w) (_dax_index w) (_dag_file_name w)
    (_original_submit_dir w) (_user w) (_jobs_map w) (_jobs w)
    (_job_submit_seq w) (_JSDB w) v (_job_info w) (_line w)
    (_last_processed_line w) (_previous_processed_line w) (_restart_count w)
    (_dagman_condor_id w) (_current_timestamp w) (_dagman_exit_code w)
    (_walltime w) (_job_site w) (_monitord_exit_code w) (sink_calls w)
    (notif_calls w) (log w).

Definition set_line (v : Z) (w : Workflow) : Workflow :=
  mkWorkflow (_run_dir w) (_out_file w) (_output_dir w) (_sink w)
    (_database_disabled w) (_enable_notifications w) (_replay_mode w)
    (_notifications_manager w) (_store_stdout_stderr w) (_wf_uuid w)
    (_dax_label w) (_dax_index w) (_dag_file_name w)
    (_original_submit_dir w) (_user w) (_jobs_map w) (_jobs w)
    (_job_submit_seq w) (_JSDB w) (_job_counters w) (_job_info w) v
    (_last_processed_line w) (_previous_processed_line w) (_restart_count w)
    (_dagman_condor_id w) (_current_timestamp w) (_dagman_exit_code w)
    (_walltime w) (_job_site w) (_monitord_exit_code w) (sink_calls w)
    (notif_calls w) (log w).

Definition set_last_processed_line (v : Z) (w : Workflow) : Workflow :=
  mkWorkflow (_run_dir w) (_out_file w) (_output_dir w) (_sink w)
    (_database_disabled w) (_enable_notifications w) (_replay_mode w)
    (_notifications_manager w) (_store_stdout_stderr w) (_wf_uuid w)
    (_dax_label w) (_dax_index w) (_dag_file_name w)
    (_original_submit_dir w) (_user w) (_jobs_map w) (_jobs w)
    (_job_submit_seq w) (_JSDB w) (_job_counters w) (_job_info w) (_line w)
    v (_previous_processed_line w) (_restart_count w) (_dagman_condor_id w)
    (_current_timestamp w) (_dagman_exit_code w) (_walltime w) (_job_site w)
    (_monitord_exit_code w) (sink_calls w) (notif_calls w) (log w).

Definition set_previous_processed_line (v : Z) (w : Workflow) : Workflow :=
  mkWorkflow (_run_dir w) (_out_file w) (_output_dir w) (_sink w)
    (_database_disabled w) (_enable_notifications w) (_replay_mode w)
    (_notifications_manager w) (_store_stdout_stderr w) (_wf_uuid w)
    (_dax_label w) (_dax_index w) (_dag_file_name w)
    (_original_submit_dir w) (_user w) (_jobs_map w) (_jobs w)
    (_job_submit_seq w) (_JSDB w) (_job_counters w) (_job_info w) (_line w)
    (_last_processed_line w) v (_restart_count w) (_dagman_condor_id w)
    (_current_timestamp w) (_dagman_exit_code w) (_walltime w) (_job_site w)
    (_monitord_exit_code w) (sink_calls w) (notif_calls w) (log w).

Definition set_restart_count (v : Z) (w : Workflow) : Workflow :=
  mkWorkflow (_run_dir w) (_out_file w) (_output_dir w) (_sink w)
    (_database_disabled w) (_enable_notifications w) (_replay_mode w)
    (_notifications_manager w) (_store_stdout_stderr w) (_wf_uuid w)
    (_dax_label w) (_dax_index w) (_dag_file_name w)
    (_original_submit_dir w) (_user w) (_jobs_map w) (_jobs w)
    (_job_submit_seq w) (_JSDB w) (_job_counters w) (_job_info w) (_line w)
    (_last_processed_line w) (_previous_processed_line w) v
    (_dagman_condor_id w) (_current_timestamp w) (_dagman_exit_code w)
    (_walltime w) (_job_site w) (_monitord_exit_code w) (sink_calls w)
    (notif_calls w) (log w).

Definition set_walltime (v : gmap string string) (w : Workflow) : Workflow :=
  mkWorkflow (_run_dir w) (_out_file w) (_output_dir w) (_sink w)
    (_database_disabled w) (_enable_notifications w) (_replay_mode w)
    (_notifications_manager w) (_store_stdout_stderr w) (_wf_uuid w)
    (_dax_label w) (_dax_index w) (_dag_file_name w)
    (_original_submit_dir w) (_user w) (_jobs_map w) (_jobs w)
    (_job_submit_seq w) (_JSDB w) (_job_counters w) (_job_info w) (_line w)
    (_last_processed_line w) (_previous_processed_line w) (_restart_count w)
    (_dagman_condor_id w) (_current_timestamp w) (_dagman_exit_code w) v
    (_job_site w) (_monitord_exit_code w) (sink_calls w) (notif_calls w)
    (log w).

Definition set_job_site (v : gmap string string) (w : Workflow) : Workflow :=
  mkWorkflow (_run_dir w) (_out_file w) (_output_dir w) (_sink w)
    (_database_disabled w) (_enable_notifications w) (_replay_mode w)
    (_notifications_manager w) (_store_stdout_stderr w) (_wf_uuid w)
    (_dax_label w) (_dax_index w) (_dag_file_name w)
    (_original_submit_dir w) (_user w) (_jobs_map w) (_jobs w)
    (_job_submit_seq w) (_JSDB w) (_job_counters w) (_job_info w) (_line w)
    (_last_processed_line w) (_previous_processed_line w) (_restart_count w)
    (_dagman_condor_id w) (_current_timestamp w) (_dagman_exit_code w)
    (_walltime w) v (_monitord_exit_code w) (sink_calls w) (notif_calls w)
    (log w).

Definition set_sink_calls (v : list (string * kwargs)) (w : Workflow) : Workflow :=
  mkWorkflow (_run_dir w) (_out_file w) (_output_dir w) (_sink w)
    (_database_disabled w) (_enable_notifications w) (_replay_mode w)
    (_notifications_manager w) (_store_stdout_stderr w) (_wf_uuid w)
    (_dax_label w) (_dax_index w) (_dag_file_name w)
    (_original_submit_dir w) (_user w) (_jobs_map w) (_jobs w)
    (_job_submit_seq w) (_JSDB w) (_job_counters w) (_job_info w) (_line w)
    (_last_processed_line w) (_previous_processed_line w) (_restart_count w)
    (_dagman_condor_id w) (_current_timestamp w) (_dagman_exit_code w)
    (_walltime w) (_job_site w) (_monitord_exit_code w) v (notif_calls w)
    (log w).

Definition set_notif_calls (v : list notif) (w : Workflow) : Workflow :=
  mkWorkflow (_run_dir w) (_out_file w) (_output_dir w) (_sink w)
    (_database_disabled w) (_enable_notifications w) (_replay_mode w)
    (_notifications_manager w) (_store_stdout_stderr w) (_wf_uuid w)
    (_dax_label w) (_dax_index w) (_dag_file_name w)
    (_original_submit_dir w) (_user w) (_jobs_map w) (_jobs w)
    (_job_submit_seq w) (_JSDB w) (_job_counters w) (_job_info w) (_line w)
    (_last_processed_line w) (_previous_processed_line w) (_restart_count w)
    (_dagman_condor_id w) (_current_timestamp w) (_dagman_exit_code w)
    (_walltime w) (_job_site w) (_monitord_exit_code w) (sink_calls w) v
    (log w).

Definition set_log (v : list logrec) (w : Workflow) : Workflow :=
  mkWorkflow (_run_dir w) (_out_file w) (_output_dir w) (_sink w)
    (_database_disabled w) (_enable_notifications w) (_replay_mode w)
    (_notifications_manager w) (_store_stdout_stderr w) (_wf_uuid w)
    (_dax_label w) (_dax_index w) (_dag_file_name w)
    (_original_submit_dir w) (_user w) (_jobs_map w) (_jobs w)
    (_job_submit_seq w) (_JSDB w) (_job_counters w) (_job_info w) (_line w)
    (_last_processed_line w) (_previous_processed_line w) (_restart_count w)
    (_dagman_condor_id w) (_current_timestamp w) (_dagman_exit_code w)
    (_walltime w) (_job_site w) (_monitord_exit_code w) (sink_calls w)
    (notif_calls w) v.

Definition set_current_timestamp (v : Z) (w : Workflow) : Workflow :=
  mkWorkflow (_run_dir w) (_out_file w) (_output_dir w) (_sink w)
    (_database_disabled w) (_enable_notifications w) (_replay_mode w)
    (_notifications_manager w) (_store_stdout_stderr w) (_wf_uuid w)
    (_dax_label w) (_dax_index w) (_dag_file_name w)
    (_original_submit_dir w) (_user w) (_jobs_map w) (_jobs w)
    (_job_submit_seq w) (_JSDB w) (_job_counters w) (_job_info w) (_line w)
    (_last_processed_line w) (_previous_processed_line w) (_restart_count w)
    (_dagman_condor_id w) v (_dagman_exit_code w) (_walltime w)
    (_job_site w) (_monitord_exit_code w) (sink_calls w) (notif_calls w)
    (log w).

Definition set_dagman_condor_id (v : option string) (w : Workflow) : Workflow :=
  mkWorkflow (_run_dir w) (_out_file w) (_output_dir w) (_sink w)
    (_database_disabled w) (_enable_notifications w) (_replay_mode w)
    (_notifications_manager w) (_store_stdout_stderr w) (_wf_uuid w)
    (_dax_label w) (_dax_index w) (_dag_file_name w)
    (_original_submit_dir w) (_user w) (_jobs_map w) (_jobs w)
    (_job_submit_seq w) (_JSDB w) (_job_counters w) (_job_info w) (_line w)
    (_last_processed_line w) (_previous_processed_line w) (_restart_count w)
    v (_current_timestamp w) (_dagman_exit_code w) (_walltime w)
    (_job_site w) (_monitord_exit_code w) (sink_calls w) (notif_calls w)
    (log w).

Definition set_dagman_exit_code (v : option Z) (w : Workflow) : Workflow :=
  mkWorkflow (_run_dir w) (_out_file w) (_output_dir w) (_sink w)
    (_database_disabled w) (_enable_notifications w) (_replay_mode w)
    (_notifications_manager w) (_store_stdout_stderr w) (_wf_uuid w)
    (_dax_label w) (_dax_index w) (_dag_file_name w)
    (_original_submit_dir w) (_user w) (_jobs_map w) (_jobs w)
    (_job_submit_seq w) (_JSDB w) (_job_counters w) (_job_info w) (_line w)
    (_last_processed_line w) (_previous_processed_line w) (_restart_count w)
    (_dagman_condor_id w) (_current_timestamp w) v (_walltime w)
    (_job_site w) (_monitord_exit_code w) (sink_calls w) (notif_calls w)
    (log w).

Definition set_job_info (v : gmap string JobInfo) (w : Workflow) : Workflow :=
  mkWorkflow (_run_dir w) (_out_file w) (_output_dir w) (_sink w)
    (_database_disabled w) (_enable_notifications w) (_replay_mode w)
    (_notifications_manager w) (_store_stdout_stderr w) (_wf_uuid w)
    (_dax_label w) (_dax_index w) (_dag_file_name w)
    (_original_submit_dir w) (_user w) (_jobs_map w) (_jobs w)
    (_job_submit_seq w) (_JSDB w) (_job_counters w) v (_line w)
    (_last_processed_line w) (_previous_processed_line w) (_restart_count w)
    (_dagman_condor_id w) (_current_timestamp w) (_dagman_exit_code w)
    (_walltime w) (_job_site w) (_monitord_exit_code w) (sink_calls w)
    (notif_calls w) (log w).

Definition set_original_submit_dir (v : option string) (w : Workflow) : Workflow :=
  mkWorkflow (_run_dir w) (_out_file w) (_output_dir w) (_sink w)
    (_database_disabled w) (_enable_notifications w) (_replay_mode w)
    (_notifications_manager w) (_store_stdout_stderr w) (_wf_uuid w)
    (_dax_label w) (_dax_index w) (_dag_file_name w) v (_user w)
    (_jobs_map w) (_jobs w) (_job_submit_seq w) (_JSDB w) (_job_counters w)
    (_job_info w) (_line w) (_last_processed_line w)
    (_previous_processed_line w) (_restart_count w) (_dagman_condor_id w)
    (_current_timestamp w) (_dagman_exit_code w) (_walltime w) (_job_site w)
    (_monitord_exit_code w) (sink_calls w) (notif_calls w) (log w).

Definition set_wf_uuid (v : option string) (w : Workflow) : Workflow :=
  mkWorkflow (_run_dir w) (_out_file w) (_output_dir w) (_sink w)
    (_database_disabled w) (_enable_notifications w) (_replay_mode w)
    (_notifications_manager w) (_store_stdout_stderr w) v (_dax_label w)
    (_dax_index w) (_dag_file_name w) (_original_submit_dir w) (_user w)
    (_jobs_map w) (_jobs w) (_job_submit_seq w) (_JSDB w) (_job_counters w)
    (_job_info w) (_line w) (_last_processed_line w)
    (_previous_processed_line w) (_restart_count w) (_dagman_condor_id w)
    (_current_timestamp w) (_dagman_exit_code w) (_walltime w) (_job_site w)
    (_monitord_exit_code w) (sink_calls w) (notif_calls w) (log w).

Definition set_dax_label (v : option string) (w : Workflow) : Workflow :=
  mkWorkflow (_run_dir w) (_out_file w) (_output_dir w) (_sink w)
    (_database_disabled w) (_enable_notifications w) (_replay_mode w)
    (_notifications_manager w) (_store_stdout_stderr w) (_wf_uuid w) v
    (_dax_index w) (_dag_file_name w) (_original_submit_dir w) (_user w)
    (_jobs_map w) (_jobs w) (_job_submit_seq w) (_JSDB w) (_job_counters w)
    (_job_info w) (_line w) (_last_processed_line w)
    (_previous_processed_line w) (_restart_count w) (_dagman_condor_id w)
    (_current_timestamp w) (_dagman_exit_code w) (_walltime w) (_job_site w)
    (_monitord_exit_code w) (sink_calls w) (notif_calls w) (log w).

Definition set_dax_index (v : option string) (w : Workflow) : Workflow :=
  mkWorkflow (_run_dir w) (_out_file w) (_output_dir w) (_sink w)
    (_database_disabled w) (_enable_notifications w) (_replay_mode w)
    (_notifications_manager w) (_store_stdout_stderr w) (_wf_uuid w)
    (_dax_label w) v (_dag_file_name w) (_original_submit_dir w) (_user w)
    (_jobs_map w) (_jobs w) (_job_submit_seq w) (_JSDB w) (_job_counters w)
    (_job_info w) (_line w) (_last_processed_line w)
    (_previous_processed_line w) (_restart_count w) (_dagman_condor_id w)
    (_current_timestamp w) (_dagman_exit_code w) (_walltime w) (_job_site w)
    (_monitord_exit_code w) (sink_calls w) (notif_calls w) (log w).

Definition set_dag_file_name (v : option string) (w : Workflow) : Workflow :=
  mkWorkflow (_run_dir w) (_out_file w) (_output_dir w) (_sink w)
    (_database_disabled w) (_enable_notifications w) (_replay_mode w)
    (_notifications_manager w) (_store_stdout_stderr w) (_wf_uuid w)
    (_dax_label w) (_dax_index w) v (_original_submit_dir w) (_user w)
    (_jobs_map w) (_jobs w) (_job_submit_seq w) (_JSDB w) (_job_counters w)
    (_job_info w) (_line w) (_last_processed_line w)
    (_previous_processed_line w) (_restart_count w) (_dagman_condor_id w)
    (_current_timestamp w) (_dagman_exit_code w) (_walltime w) (_job_site w)
    (_monitord_exit_code w) (sink_calls w) (notif_calls w) (log w).

Definition set_user (v : option string) (w : Workflow) : Workflow :=
  mkWorkflow (_run_dir w) (_out_file w) (_output_dir w) (_sink w)
    (_database_disabled w) (_enable_notifications w) (_replay_mode w)
    (_notifications_manager w) (_store_stdout_stderr w) (_wf_uuid w)
    (_dax_label w) (_dax_index w) (_dag_file_name w)
    (_original_submit_dir w) v (_jobs_map w) (_jobs w) (_job_submit_seq w)
    (_JSDB w) (_job_counters w) (_job_info w) (_line w)
    (_last_processed_line w) (_previous_processed_line w) (_restart_count w)
    (_dagman_condor_id w) (_current_timestamp w) (_dagman_exit_code w)
    (_walltime w) (_job_site w) (_monitord_exit_code w) (sink_calls w)
    (notif_calls w) (log w).

Definition set_monitord_exit_code (v : Z) (w : Workflow) : Workflow :=
  mkWorkflow (_run_dir w) (_out_file w) (_output_dir w) (_sink w)
    (_database_disabled w) (_enable_notifications w) (_replay_mode w)
    (_notifications_manager w) (_store_stdout_stderr w) (_wf_uuid w)
    (_dax_label w) (_dax_index w) (_dag_file_name w)
    (_original_submit_dir w) (_user w) (_jobs_map w) (_jobs w)
    (_job_submit_seq w) (_JSDB w) (_job_counters w) (_job_info w) (_line w)
    (_last_processed_line w) (_previous_processed_line w) (_restart_count w)
    (_dagman_condor_id w) (_current_timestamp w) (_dagman_exit_code w)
    (_walltime w) (_job_site w) v (sink_calls w) (notif_calls w) (log w).

(** [logger.<level>(fmt % args)] *)
Definition logger (l : level) (f : string) (a : list string) (w : Workflow) : Workflow :=
  set_log (log w ++ [Log l f a]) w.

(** [self._JSDB.write(line)] *)
Definition JSDB_write (line : string) (w : Workflow) : Workflow :=
  set_JSDB (_JSDB w ++ [line]) w.

(** ** Sending events: [output_to_db] *)

(** [str(kwargs)], as far as the warning needs it. *)
Definition repr_kwargs (kw : kwargs) : string :=
  String.concat ", "
    (map (fun kv : string * pyval => fst kv ++ ": " ++ py_str (snd kv))
         (map_to_list kw)).

(** [(self._dax_label or "unknown") + "-" + (self._dax_index or "unknown")] *)
Definition dax_tag (w : Workflow) : string :=
  or_unknown (_dax_label w) ++ "-" ++ or_unknown (_dax_index w).

(** [Workflow.output_to_db]: the call of [send] is recorded in
    [sink_calls]; the sink function tells whether it raises.  The bare
    [except] catches whatever [send] raises, so the method always
    returns. *)
Definition output_to_db (w : Workflow) (event : string) (kw : kwargs) : Workflow :=
  match _sink w with
  | None => w
  | Some sink =>
      if _database_disabled w then w
      else
        let w1 := set_sink_calls (sink_calls w ++ [(event, kw)]) w in
        if sink (sink_calls w) event kw then w1
        else
          let w2 := logger WARNING "NL-LOAD-ERROR --> %s - %s"
                      [str_opt (_wf_uuid w1); dax_tag w1] w1 in
          let w3 := logger WARNING "error sending event: %s --> %s"
                      [event; repr_kwargs kw] w2 in
          let w4 := logger WARNING "%s" ["traceback.format_exc()"] w3 in
          set_database_disabled true w4
  end.

(** ** Notifications and workflow state changes *)

(** [Workflow.check_notifications]: the answer, and the object with the
    debug record of the recovery branch. *)
Definition check_notifications (w : Workflow) : bool * Workflow :=
  if negb (_enable_notifications w) then (false, w)
  else if _line w <? _previous_processed_line w
       then (false,
             logger DEBUG
               "Recovery mode: skipping notification already issued... line %s"
               [PyStr.str_of_Z (_line w)] w)
       else (true, w).

Definition opt_str_val (o : option string) : pyval :=
  match o with Some s => PStr s | None => PNone end.

Definition opt_int_val (o : option Z) : pyval :=
  match o with Some z => PInt z | None => PNone end.

(** [Workflow.db_send_wf_state] *)
Definition db_send_wf_state (w : Workflow) (state : option string) : Workflow :=
  match _sink w, state with
  | None, _ => w
  | Some _, None => w
  | Some _, Some st =>
      let kw : kwargs :=
        <["restart_count" := PInt (_restart_count w - 1)]>
          (<["ts" := PInt (_current_timestamp w)]>
             (<["xwf__id" := opt_str_val (_wf_uuid w)]> ∅)) in
      let '(kw, w) :=
        if bool_decide (st = "end") then
          let kw := <["status" := opt_int_val (_dagman_exit_code w)]> kw in
          let kw := if bool_decide (_dagman_exit_code w = Some 0) then kw
                    else <["level" := PStr "Error"]> kw in
          match _dagman_exit_code w with
          | None =>
              (<["status" := PInt 0]> kw,
               logger WARNING "%s - %s - %s - %s: DAGMan exit code hasn't been set..."
                 [str_opt (_wf_uuid w); dax_tag w; PyStr.str_of_Z (_line w);
                  _out_file w] w)
          | Some _ => (kw, w)
          end
        else (kw, w) in
      output_to_db w ("xwf." ++ st) kw
  end.

(** [Workflow.change_wf_state] *)
Definition change_wf_state (w : Workflow) (state : string) : Workflow :=
  let w :=
    if bool_decide (state = "start") then
      let w := logger INFO "DAGMan starting with condor id %s"
                 [str_opt (_dagman_condor_id w)] w in
      let w := JSDB_write (PyStr.str_of_Z (_current_timestamp w)
                           ++ " INTERNAL *** DAGMAN_STARTED "
                           ++ str_opt (_dagman_condor_id w) ++ " ***" ++ NL) w in
      set_restart_count (_restart_count w + 1) w
    else if bool_decide (state = "end") then
      JSDB_write (PyStr.str_of_Z (_current_timestamp w)
                  ++ " INTERNAL *** DAGMAN_FINISHED "
                  ++ py_str (opt_int_val (_dagman_exit_code w)) ++ " ***" ++ NL) w
    else w in
  let '(notify, w) := check_notifications w in
  let w :=
    if notify && _notifications_manager w
    then set_notif_calls (notif_calls w ++ [Notif "workflow" state]) w
    else w in
  db_send_wf_state w (Some state).

(** ** Eviction of finished jobs: [start_wf] *)

(** The test of the first loop of [start_wf]: the job is done when it is in
    POST_SCRIPT_SUCCESS, or in JOB_SUCCESS with static information that
    shows no postscript. *)
Definition job_done (w : Workflow) (my_jobid : string) (my_job : Job.t) : bool :=
  match Job._job_state my_job with
  | Some st =>
      if bool_decide (st = "POST_SCRIPT_SUCCESS") then true
      else if bool_decide (st = "JOB_SUCCESS") then
        match _job_info w !! my_jobid with
        | Some info => bool_decide (post_exec info = None)
        | None => false
        end
      else false
  | None => false
  end.

Definition jobs_to_delete (w : Workflow) : list (string * Z) :=
  flat_map (fun kv : string * Z * Job.t =>
              if job_done w (fst (fst kv)) (snd kv) then [fst kv] else [])
           (map_to_list (_jobs w)).

Definition jobs_kept_log (w : Workflow) : list logrec :=
  flat_map (fun kv : string * Z * Job.t =>
              if job_done w (fst (fst kv)) (snd kv) then []
              else [Log DEBUG "keeping job %s..." [fst (fst kv)]])
           (map_to_list (_jobs w)).

(** The body of the second loop of [start_wf]. *)
Definition delete_job (w : Workflow) (key : string * Z) : Workflow :=
  let w := set_walltime (delete (fst key) (_walltime w)) w in
  let w := set_job_site (delete (fst key) (_job_site w)) w in
  let w := set_jobs_map (delete (fst key) (_jobs_map w)) w in
  set_jobs (delete key (_jobs w)) w.

(** [Workflow.start_wf] *)
Definition start_wf (w : Workflow) : Workflow :=
  let w1 := logger DEBUG "DAGMan restarted, cleaning up old job information..." [] w in
  let w2 := set_log (log w1 ++ jobs_kept_log w) w1 in
  fold_left delete_job (jobs_to_delete w) w2.

(** ** The checkpoint file and the recovery marker *)

(** The file name both [read_workflow_state] and [write_workflow_state]
    compute, for the file name constant [name]. *)
Definition wf_file (w : Workflow) (name : string) : string :=
  match _output_dir w with
  | None => PosixPath.join (_run_dir w) name
  | Some d => PosixPath.join d (str_opt (_wf_uuid w) ++ "-" ++ name)
  end.

(** The body of the loop of [read_workflow_state] for one line; [None] when
    the unpacking of the split or [int] raises. *)
Definition read_state_line (w : Workflow) (line : string) : option Workflow :=
  match PyStr.split_once " " line with
  | None => None
  | Some (my_job, my_count) =>
      let my_job := PyStr.strip my_job in
      match PyStr.py_int (PyStr.strip my_count) with
      | None => None
      | Some my_count =>
          Some (if bool_decide (my_job = "monitord_job_sequence")
                then set_job_submit_seq my_count w
                else if bool_decide (my_job = "monitord_dagman_out_sequence")
                then set_last_processed_line my_count w
                else if bool_decide (my_job = "monitord_workflow_restart_count")
                then set_restart_count my_count w
                else set_job_counters (<[my_job := my_count]> (_job_counters w)) w)
      end
  end.

(** The loop inside the [try]: the first line that raises ends it, with
    the error record of the handler. *)
Fixpoint read_state_lines (w : Workflow) (my_fn : string) (lines : list string) : Workflow :=
  match lines with
  | [] => w
  | line :: rest =>
      match read_state_line w line with
      | Some w' => read_state_lines w' my_fn rest
      | None => logger ERROR "error processing state file %s" [my_fn] w
      end
  end.

(** [Workflow.read_workflow_state] *)
Definition read_workflow_state (w : Workflow) (fs : FS) : Workflow :=
  let my_fn := wf_file w MONITORD_STATE_FILE in
  match fs_files fs !! my_fn with
  | None => logger INFO "cannot open state file %s, continuing without state..." [my_fn] w
  | Some lines => read_state_lines w my_fn lines
  end.

(** The lines [write_workflow_state] writes. *)
Definition state_file_lines (w : Workflow) : list string :=
  ("monitord_job_sequence " ++ PyStr.str_of_Z (_job_submit_seq w) ++ NL)
  :: ("monitord_dagman_out_sequence "
      ++ PyStr.str_of_Z (if _last_processed_line w <? _line w
                         then _line w else _last_processed_line w) ++ NL)
  :: ("monitord_workflow_restart_count " ++ PyStr.str_of_Z (_restart_count w) ++ NL)
  :: map (fun kv : string * Z => fst kv ++ " " ++ PyStr.str_of_Z (snd kv) ++ NL)
         (map_to_list (_job_counters w)).

(** [Workflow.write_workflow_state] *)
Definition write_workflow_state (w : Workflow) (fs : FS) : Workflow * FS :=
  let my_fn := wf_file w MONITORD_STATE_FILE in
  if bool_decide (my_fn ∈ fs_denied fs)
  then (logger ERROR "cannot open state file %s" [my_fn] w, fs)
  else (w, fs_write my_fn (state_file_lines w) fs).

(** The loop of [read_workflow_progress]: [None] when a line raises,
    [Some None] when no line has the key, [Some (Some n)] at the first
    line that has it. *)
Fixpoint read_progress_lines (lines : list string) : option (option Z) :=
  match lines with
  | [] => Some None
  | line :: rest =>
      match PyStr.split_once " " (PyStr.strip line) with
      | None => None
      | Some (my_key, my_value) =>
          if bool_decide (my_key = "line_processed")
          then match PyStr.py_int (PyStr.strip my_value) with
               | Some n => Some (Some n)
               | None => None
               end
          else read_progress_lines rest
      end
  end.

(** [Workflow.read_workflow_progress] *)
Definition read_workflow_progress (w : Workflow) (fs : FS) : Workflow :=
  let my_recover_file := wf_file w MONITORD_RECOVER_FILE in
  match fs_files fs !! my_recover_file with
  | None => w
  | Some lines =>
      match read_progress_lines lines with
      | Some (Some n) =>
          logger INFO "monitord last processed line: %d" [PyStr.str_of_Z n]
            (set_previous_processed_line n w)
      | Some None => w
      | None =>
          logger INFO "couldn't open/parse recover file information: %s"
            [my_recover_file] w
      end
  end.

(** [Workflow.write_workflow_progress] *)
Definition write_workflow_progress (w : Workflow) (fs : FS) : Workflow * FS :=
  if _line w <? _previous_processed_line w then (w, fs)
  else
    let my_recover_file := wf_file w MONITORD_RECOVER_FILE in
    if bool_decide (my_recover_file ∈ fs_denied fs)
    then (logger ERROR "cannot open recover file: %s" [my_recover_file] w, fs)
    else (w, fs_write my_recover_file
               ["line_processed " ++ PyStr.str_of_Z (_line w) ++ NL] fs).

(** ** Construction: [__init__] up to the recovery of earlier state *)

(** The attribute initialisations of [__init__]. *)
Definition new_workflow (rundir outfile : string) (database : option Sink)
    (enable_notifications replay_mode store_stdout_stderr : bool)
    (output_dir : option string) (notifications_manager : bool) : Workflow :=
  {| _run_dir := rundir; _out_file := outfile; _output_dir := output_dir;
     _sink := database; _database_disabled := false;
     _enable_notifications := enable_notifications;
     _replay_mode := replay_mode;
     _notifications_manager := notifications_manager;
     _store_stdout_stderr := store_stdout_stderr;
     _wf_uuid := None; _dax_label := None; _dax_index := None;
     _dag_file_name := None; _original_submit_dir := None; _user := None;
     _jobs_map := ∅; _jobs := ∅; _job_submit_seq := 1; _JSDB := [];
     _job_counters := ∅; _job_info := ∅; _line := 0;
     _last_processed_line := 0; _previous_processed_line := 0;
     _restart_count := 0; _dagman_condor_id := None;
     _current_timestamp := 0; _dagman_exit_code := None;
     _walltime := ∅; _job_site := ∅; _monitord_exit_code := 0;
     sink_calls := []; notif_calls := []; log := [] |}.

(** The braindump step of [__init__], for the attributes kept here;
    [wfparams] is what [utils.slurp_braindb] read.  The answer tells whether
    construction goes on: without [wf_uuid] or [dag] the method logs an
    error, sets the exit code to 1 and returns. *)
Definition init_braindump (w : Workflow) (wfparams : gmap string string) : bool * Workflow :=
  match wfparams !! "wf_uuid" with
  | None =>
      (false,
       set_monitord_exit_code 1
         (logger ERROR "wf_uuid not specified in braindump, skipping this (sub-)workflow..."
            [] w))
  | Some uuid =>
      let w := set_wf_uuid (Some uuid) w in
      let w := set_dax_label
                 (match wfparams !! "dax_label" with
                  | Some l => Some l
                  | None => wfparams !! "label"
                  end) w in
      let w := set_dax_index (wfparams !! "dax_index") w in
      match wfparams !! "dag" with
      | None =>
          (false,
           set_monitord_exit_code 1
             (logger ERROR "dag not specified in braindump, skipping this (sub-)workflow..."
                [] w))
      | Some dag =>
          let w := set_dag_file_name (Some dag) w in
          let w := set_original_submit_dir
                     (match wfparams !! "submit_dir" with
                      | Some d => Some (PosixPath.normpath d)
                      | None =>
                          (fun jsd => PosixPath.dirname (PosixPath.normpath jsd))
                            <$> wfparams !! "jsd"
                      end) w in
          (true, set_user (wfparams !! "user") w)
      end
  end.

(** The recovery step of [__init__]:
    [if not self._replay_mode: read_workflow_state(); read_workflow_progress();
     if self._previous_processed_line != 0: self._last_processed_line = 0]. *)
Definition init_recover (w : Workflow) (fs : FS) : Workflow :=
  if _replay_mode w then w
  else
    let w := read_workflow_state w fs in
    let w := read_workflow_progress w fs in
    if bool_decide (_previous_processed_line w ≠ 0)
    then set_last_processed_line 0 w
    else w.

(** ** The job index *)

(** [Workflow.find_jobid] *)
Definition find_jobid (w : Workflow) (jobid : string) : option Z :=
  _jobs_map w !! jobid.

Definition state_is (j : Job.t) (st : string) : bool :=
  bool_decide (Job._job_state j = Some st).

(** [Workflow.find_job_submit_seq]: the answer and the object with the
    warning of the "cannot find job" branch. *)
Definition find_job_submit_seq (w : Workflow) (jobid : string)
    (sched_id : option string) : option Z * Workflow :=
  match find_jobid w jobid with
  | None => (None, w)
  | Some my_job_submit_seq =>
      match _jobs w !! (jobid, my_job_submit_seq) with
      | None =>
          (None, logger WARNING "cannot find job: %s, %s"
                   [jobid; PyStr.str_of_Z my_job_submit_seq] w)
      | Some my_job =>
          if state_is my_job "PRE_SCRIPT_SUCCESS" || state_is my_job "DAGMAN_SUBMIT"
          then (Some my_job_submit_seq, w)
          else
            match sched_id with
            | Some sid =>
                if bool_decide (Job._sched_id my_job = Some sid)
                then (Some my_job_submit_seq, w)
                else (None, w)
            | None => (None, w)
            end
      end
  end.

(** The end of [add_job]: the resubmission counter of a job in the SUBMIT
    state, copied into the instance as its output counter. *)
Definition add_job_counter (w : Workflow) (jobid job_state : string)
    (my_job_submit_seq : Z) : Workflow :=
  if bool_decide (job_state = "SUBMIT") then
    let c := match _job_counters w !! jobid with
             | Some n => n + 1
             | None => 0
             end in
    let w := set_job_counters (<[jobid := c]> (_job_counters w)) w in
    set_jobs (alter (Job.set_output_counter c) (jobid, my_job_submit_seq) (_jobs w)) w
  else w.

(** [Workflow.add_job]: the value returned ([None] on the two branches that
    return nothing) and the object afterwards. *)
Definition add_job (w : Workflow) (jobid job_state : string)
    (sched_id : option string) : option Z * Workflow :=
  let '(found, w) := find_job_submit_seq w jobid sched_id in
  match found with
  | Some my_job_submit_seq =>
      match _jobs w !! (jobid, my_job_submit_seq) with
      | None =>
          (None, logger WARNING "cannot find job: %s, %s"
                   [jobid; PyStr.str_of_Z my_job_submit_seq] w)
      | Some my_job =>
          let my_job := match sched_id with
                        | Some _ => Job.set_sched_id sched_id my_job
                        | None => my_job
                        end in
          let my_job := Job.set_state job_state (_current_timestamp w) my_job in
          let w := set_jobs (<[(jobid, my_job_submit_seq) := my_job]> (_jobs w)) w in
          (Some my_job_submit_seq, add_job_counter w jobid job_state my_job_submit_seq)
      end
  | None =>
      let my_job_submit_seq := _job_submit_seq w in
      match _jobs w !! (jobid, my_job_submit_seq) with
      | Some _ =>
          (None, logger WARNING "trying to add job twice: %s, %s"
                   [jobid; PyStr.str_of_Z my_job_submit_seq] w)
      | None =>
          let my_job := Job.new (_wf_uuid w) jobid my_job_submit_seq in
          let my_job := Job.set_state job_state (_current_timestamp w) my_job in
          let my_job := Job.set_sched_id sched_id my_job in
          let w := set_jobs (<[(jobid, my_job_submit_seq) := my_job]> (_jobs w)) w in
          let w := set_jobs_map (<[jobid := my_job_submit_seq]> (_jobs_map w)) w in
          let w := set_job_submit_seq (_job_submit_seq w + 1) w in
          (Some my_job_submit_seq, add_job_counter w jobid job_state my_job_submit_seq)
      end
  end.

(** [Workflow.job_update_info] *)
Definition job_update_info (w : Workflow) (jobid : string) (job_submit_seq : Z)
    (sched_id : option string) : Workflow :=
  match _jobs w !! (jobid, job_submit_seq) with
  | None =>
      logger WARNING "cannot find job: %s, %s"
        [jobid; PyStr.str_of_Z job_submit_seq] w
  | Some my_job =>
      set_jobs (<[(jobid, job_submit_seq) := Job.set_sched_id sched_id my_job]> (_jobs w)) w
  end.

(** The "find job" step that opens [update_job_state]: the key of the
    instance the call updates, [None] when it returns with the "cannot
    find job" warning. *)
Definition update_job_state_find (w : Workflow) (jobid : string)
    (job_submit_seq : option Z) : option (string * Z) :=
  let job_submit_seq :=
    match job_submit_seq with
    | Some s => Some s
    | None => _jobs_map w !! jobid
    end in
  match job_submit_seq with
  | None => None
  | Some s =>
      match _jobs w !! (jobid, s) with
      | Some _ => Some (jobid, s)
      | None => None
      end
  end.

(** ** The main-phase end event: [db_send_job_end] *)

Definition put_opt (key : string) (o : option pyval) (kw : kwargs) : kwargs :=
  match o with Some v => <[key := v]> kw | None => kw end.

(** The text put in the event for a captured output, and whether the
    truncation warning is logged. *)
Definition output_text (text : string) : string * bool :=
  if MAX_OUTPUT_LENGTH <? PyStr.len text
  then (PyStr.take (Z.to_nat MAX_OUTPUT_LENGTH) text, true)
  else (text, false).

(** The file name of a captured output in the event. *)
Definition output_file_name (my_job : Job.t) (file : option string) : string :=
  match file with
  | Some f =>
      if Job._kickstart_parsed my_job
      then f ++ "." ++ PyStr.fmt_03d (Job._job_output_counter my_job)
      else f
  | None => ""
  end.

(** The keyword dictionary of [db_send_job_end], up to the text fields. *)
Definition job_end_kwargs_head (w : Workflow) (my_job : Job.t) : kwargs :=
  let kw : kwargs := <["xwf__id" := opt_str_val (Job._wf_uuid my_job)]> ∅ in
  let kw := <["job__id" := PStr (Job._exec_job_id my_job)]> kw in
  let kw := <["job_inst__id" := PInt (Job._job_submit_seq my_job)]> kw in
  let kw := <["ts" := opt_int_val (Job._job_state_timestamp my_job)]> kw in
  let kw := <["js__id" := PInt (Job._job_state_seq my_job)]> kw in
  let kw := <["site" := PStr (default "" (Job._site_name my_job))]> kw in
  let kw := put_opt "user"
              (PStr <$> match Job._remote_user my_job with
                        | Some u => Some u
                        | None => _user w
                        end) kw in
  let kw := put_opt "work_dir"
              (PStr <$> match Job._remote_working_dir my_job with
                        | Some d => Some d
                        | None => _original_submit_dir w
                        end) kw in
  let kw := put_opt "cluster__start" (PStr <$> Job._cluster_start_time my_job) kw in
  let kw := put_opt "cluster__dur" (PStr <$> Job._cluster_duration my_job) kw in
  let kw := match Job._main_job_start my_job, Job._main_job_done my_job with
            | Some st, Some dn => <["local__dur" := PInt (dn - st)]> kw
            | _, _ => kw
            end in
  let kw := put_opt "stdin__file" (PStr <$> Job._input_file my_job) kw in
  let kw := <["stdout__file" := PStr (output_file_name my_job (Job._output_file my_job))]> kw in
  <["stderr__file" := PStr (output_file_name my_job (Job._error_file my_job))]> kw.

(** The two text fields: the dictionary and the object with the warnings. *)
Definition job_end_texts (w : Workflow) (my_job : Job.t) (kw : kwargs) : kwargs * Workflow :=
  if _store_stdout_stderr w then
    let '(kw, w) :=
      match Job._stdout_text my_job with
      | Some text =>
          let '(t, truncated) := output_text text in
          (<["stdout__text" := PStr t]> kw,
           if truncated
           then logger WARNING "truncating stdout for job %s" [Job._exec_job_id my_job] w
           else w)
      | None => (kw, w)
      end in
    match Job._stderr_text my_job with
    | Some text =>
        let '(t, truncated) := output_text text in
        (<["stderr__text" := PStr t]> kw,
         if truncated
         then logger WARNING "truncating stderr for job %s" [Job._exec_job_id my_job] w
         else w)
    | None => (kw, w)
    end
  else (kw, w).

(** The end of the dictionary: multiplier, exit code, scheduler id, status. *)
Definition job_end_kwargs_tail (my_job : Job.t) (status : option Z) (kw : kwargs) : kwargs :=
  let kw := put_opt "multiplier_factor"
              ((fun z => PStr (PyStr.str_of_Z z)) <$> Job._main_job_multiplier_factor my_job) kw in
  let kw := <["exitcode" := PStr (py_str (opt_int_val (Job._main_job_exitcode my_job)))]> kw in
  let kw := put_opt "sched__id" (PStr <$> Job._sched_id my_job) kw in
  match status with
  | Some st =>
      let kw := <["status" := PInt st]> kw in
      if bool_decide (st = 0) then kw else <["level" := PStr "Error"]> kw
  | None => <["level" := PStr "Error"]> (<["status" := PInt (-1)]> kw)
  end.

(** The dictionary sent with the event and the object once the warnings
    are logged. *)
Definition job_end_event (w : Workflow) (my_job : Job.t) (status : option Z) : kwargs * Workflow :=
  let '(kw, w) := job_end_texts w my_job (job_end_kwargs_head w my_job) in
  (job_end_kwargs_tail my_job status kw, w).

(** [Workflow.db_send_job_end]: the object and the job afterwards. *)
Definition db_send_job_end (w : Workflow) (my_job : Job.t) (status : option Z) : Workflow * Job.t :=
  match _sink w with
  | None => (w, my_job)
  | Some _ =>
      let '(kw, w) := job_end_event w my_job status in
      (output_to_db w "job_inst.main.end" kw, Job.clear_texts my_job)
  end.

(** ** The sub-workflow resolver: [has_subworkflow] *)

(** What a call does: it returns a value or raises. *)
Inductive outcome (A : Type) : Type :=
  | Returns (a : A)
  | Raises (e : string).
Arguments Returns {A} a.
Arguments Raises {A} e.

(** The first half of [has_subworkflow]: the nested log named by the job,
    moved under the current run directory; [Returns None] on each early
    [return None].  [str.find(None)] raises TypeError when the original
    submit directory is not known. *)
Definition subworkflow_dagman_out (w : Workflow) (jobid : string) : outcome (option string) * Workflow :=
  match _job_info w !! jobid with
  | None => (Returns None, w)
  | Some info =>
      if is_subdag info then (Returns None, w)
      else
        match find_jobid w jobid with
        | None => (Returns None, w)
        | Some my_job_submit_seq =>
            match _jobs w !! (jobid, my_job_submit_seq) with
            | None =>
                (Returns None,
                 logger WARNING "cannot find job: %s, %s"
                   [jobid; PyStr.str_of_Z my_job_submit_seq] w)
            | Some my_job =>
                match Job._job_dagman_out my_job with
                | None => (Returns None, w)
                | Some my_dagman_out =>
                    let my_dagman_out := PosixPath.normpath my_dagman_out in
                    match _original_submit_dir w with
                    | None => (Raises "TypeError", w)
                    | Some osd =>
                        if PyStr.contains osd my_dagman_out then
                          let p := PosixPath.normpath
                                     (PyStr.replace_first (osd ++ "/") "" my_dagman_out) in
                          (Returns (Some (PosixPath.join (_run_dir w) p)), w)
                        else (Returns (Some my_dagman_out), w)
                    end
                end
            end
        end
  end.

(** The second half: the retry counter of the directory and the choice of
    the numbered directory.  [wf_retries] is the caller's dictionary; the
    updated dictionary is returned with the answer. *)
Definition subworkflow_retry_dir (w : Workflow) (fs : FS) (my_dagman_out : string)
    (wf_retries : gmap string Z) : option string * gmap string Z * Workflow :=
  let my_dagman_dir := PosixPath.dirname my_dagman_out in
  let my_dagman_file := PosixPath.basename my_dagman_out in
  let my_retry := match wf_retries !! my_dagman_dir with
                  | Some r => r + 1
                  | None => 0
                  end in
  let wf_retries := <[my_dagman_dir := my_retry]> wf_retries in
  let my_retry_dir := my_dagman_dir ++ "." ++ PyStr.fmt_03d my_retry in
  if isdir fs my_retry_dir
  then (Some (PosixPath.join my_retry_dir my_dagman_file), wf_retries, w)
  else
    let w := logger DEBUG
               "sub-workflow directory %s does not exist, shifting to rescue mode..."
               [my_retry_dir] w in
    let my_retry_dir := my_dagman_dir ++ ".000" in
    if isdir fs my_retry_dir
    then (Some (PosixPath.join my_retry_dir my_dagman_file), wf_retries, w)
    else (None, wf_retries,
          logger WARNING
            "sub-workflow directory %s does not exist! Skipping this sub-workflow..."
            [my_retry_dir] w).

(** [Workflow.has_subworkflow] *)
Definition has_subworkflow (w : Workflow) (fs : FS) (jobid : string)
    (wf_retries : option (gmap string Z))
  : outcome (option string) * option (gmap string Z) * Workflow :=
  match subworkflow_dagman_out w jobid with
  | (Raises e, w) => (Raises e, wf_retries, w)
  | (Returns None, w) => (Returns None, wf_retries, w)
  | (Returns (Some my_dagman_out), w) =>
      match wf_retries with
      | None =>
          (Returns (Some my_dagman_out), None,
           logger WARNING
             "persistent wf_retry not available... using sub-workflow directory: %s"
             [PosixPath.dirname my_dagman_out] w)
      | Some retries =>
          let '(r, retries, w) := subworkflow_retry_dir w fs my_dagman_out retries in
          (Returns r, Some retries, w)
      end
  end.

(** ** Runs: sequences of method calls on one workflow object *)

(** The calls the monitoring loop makes on a workflow object while it
    follows the controller log. *)
Inductive call : Type :=
  | AddJob (jobid job_state : string) (sched_id : option string)
  | JobUpdateInfo (jobid : string) (job_submit_seq : Z) (sched_id : option string)
  | StartWf
  | ChangeWfState (state : string)
  | OutputToDb (event : string) (kw : kwargs)
  | DbSendWfState (state : option string)
  | DbSendJobEnd (jobid : string) (job_submit_seq : Z) (status : option Z).

(** [db_send_job_end] is called on the job object stored in [_jobs]: the
    texts it clears are cleared in the stored object. *)
Definition db_send_job_end_at (w : Workflow) (jobid : string) (job_submit_seq : Z)
    (status : option Z) : Workflow :=
  match _jobs w !! (jobid, job_submit_seq) with
  | None => w
  | Some my_job =>
      let '(w, my_job) := db_send_job_end w my_job status in
      set_jobs (<[(jobid, job_submit_seq) := my_job]> (_jobs w)) w
  end.

Definition apply_call (w : Workflow) (c : call) : Workflow :=
  match c with
  | AddJob jobid job_state sched_id => snd (add_job w jobid job_state sched_id)
  | JobUpdateInfo jobid s sched_id => job_update_info w jobid s sched_id
  | StartWf => start_wf w
  | ChangeWfState state => change_wf_state w state
  | OutputToDb event kw => output_to_db w event kw
  | DbSendWfState state => db_send_wf_state w state
  | DbSendJobEnd jobid s status => db_send_job_end_at w jobid s status
  end.

Definition run (w : Workflow) (calls : list call) : Workflow :=
  fold_left apply_call calls w.

(** Whether [add_job] takes the branch that creates a Job Instance: no
    reusable instance is found and the key is free. *)
Definition add_job_creates (w : Workflow) (jobid : string) (sched_id : option string) : bool :=
  match fst (find_job_submit_seq w jobid sched_id) with
  | Some _ => false
  | None => bool_decide (_jobs w !! (jobid, _job_submit_seq w) = None)
  end.

(** The Job Instances a call creates: name and submit-sequence number. *)
Definition created (w : Workflow) (c : call) : list (string * Z) :=
  match c with
  | AddJob jobid _ sched_id =>
      if add_job_creates w jobid sched_id then [(jobid, _job_submit_seq w)] else []
  | _ => []
  end.

(** The Job Instances created along a run, oldest first. *)
Fixpoint history (w : Workflow) (calls : list call) : list (string * Z) :=
  match calls with
  | [] => []
  | c :: rest => created w c ++ history (apply_call w c) rest
  end.


(** Every live Job Instance has a number below the counter. *)
Definition index_ok (w : Workflow) : bool :=
  forallb (fun kv : string * Z * Job.t => snd (fst kv) <? _job_submit_seq w)
          (map_to_list (_jobs w)).

(** ** Notions of the design document *)

(** Terminal states (section 4.1): POST_SCRIPT_SUCCESS, POST_SCRIPT_FAILURE,
    or JOB_SUCCESS / JOB_FAILURE when the static info shows no post-script. *)
Definition terminal (w : Workflow) (jobid : string) (j : Job.t) : bool :=
  state_is j "POST_SCRIPT_SUCCESS" || state_is j "POST_SCRIPT_FAILURE"
  || ((state_is j "JOB_SUCCESS" || state_is j "JOB_FAILURE")
      && match _job_info w !! jobid with
         | Some info => bool_decide (post_exec info = None)
         | None => false
         end).

Definition pre_terminal (w : Workflow) (jobid : string) (j : Job.t) : bool :=
  negb (terminal w jobid j).


(** The first word of a checkpoint line that starts with the key [k]. *)
Fixpoint first_word (k : string) : string :=
  match k with
  | EmptyString => EmptyString
  | String c k' => if Ascii.eqb c " " then EmptyString else String c (first_word k')
  end.

(** A job name is not read back as the sequence key of the checkpoint. *)
Definition not_sequence_key (k : string) : bool :=
  negb (bool_decide (PyStr.strip (first_word k) = "monitord_job_sequence")).

(** ** The recovery marker as a later daemon would read it *)

(** The offset [read_workflow_progress] recovers from the marker file, when
    it recovers one. *)
Definition stored_offset (w : Workflow) (fs : FS) : option Z :=
  match fs_files fs !! wf_file w MONITORD_RECOVER_FILE with
  | Some lines =>
      match read_progress_lines lines with
      | Some (Some n) => Some n
      | _ => None
      end
  | None => None
  end.

(** The reader of the controller log moves to line [n] and the progress is
    written: [self._line = n; self.write_workflow_progress()]. *)
Definition checkpoint_progress (st : Workflow * FS) (n : Z) : Workflow * FS :=
  write_workflow_progress (set_line n (fst st)) (snd st).

(** The attributes no call of a run assigns. *)
Definition same_static (w w' : Workflow) : Prop :=
  _line w' = _line w
  /\ _previous_processed_line w' = _previous_processed_line w
  /\ _enable_notifications w' = _enable_notifications w
  /\ _notifications_manager w' = _notifications_manager w
  /\ _sink w' = _sink w
  /\ _run_dir w' = _run_dir w
  /\ _output_dir w' = _output_dir w
  /\ _wf_uuid w' = _wf_uuid w
  /\ _job_info w' = _job_info w
  /\ _original_submit_dir w' = _original_submit_dir w
  /\ _replay_mode w' = _replay_mode w.

(** One more encounter of the sub-workflow of [jobid]: the caller keeps the
    retry dictionary from one call of [has_subworkflow] to the next. *)
Definition resolve_again (w : Workflow) (jobid : string)
    (wf_retries : option (gmap string Z)) (fs : FS) : option (gmap string Z) :=
  snd (fst (has_subworkflow w fs jobid wf_retries)).

(** [__init__] from the attribute initialisations to the recovery step.
    What follows in [__init__] (opening jobstate.log, the start file, the
    static events) is outside this development. *)
Definition init_until_recovery (rundir outfile : string) (database : option Sink)
    (enable_notifications replay_mode store_stdout_stderr : bool)
    (output_dir : option string) (notifications_manager : bool)
    (wfparams : gmap string string) (fs : FS) : Workflow :=
  let w := new_workflow rundir outfile database enable_notifications replay_mode
             store_stdout_stderr output_dir notifications_manager in
  let '(go_on, w) := init_braindump w wfparams in
  if go_on then init_recover w fs else w.

(** ** Sample objects for the examples *)

Definition accepting_sink : Sink := fun _ _ _ => true.
Definition failing_sink : Sink := fun _ _ _ => false.

(** A workflow object as the attribute initialisations of [__init__] leave
    it, with a sink and a notification manager, in the run directory
    [/run]. *)
Definition sample_wf : Workflow :=
  new_workflow "/run" "wf.dag.dagman.out" (Some accepting_sink) true false true None true.

Definition sample_wf_failing_sink : Workflow :=
  new_workflow "/run" "wf.dag.dagman.out" (Some failing_sink) true false true None true.

(** A run directory whose recovery marker records line 5. *)
Definition sample_fs_recover : FS :=
  mkFS {[ "/run/monitord.recover" := ["line_processed 5" ++ NL] ]} ∅ ∅.

(** A first run that submits a job named like the sequence key of the
    checkpoint, then a job [B]; the checkpoint it leaves in an empty run
    directory; the object a restarted daemon builds from it. *)
Definition reserved_name_run : list call :=
  [AddJob "monitord_job_sequence" "SUBMIT" (Some "1.0");
   AddJob "B" "SUBMIT" (Some "2.0")].

Definition reserved_name_checkpoint : FS :=
  snd (write_workflow_state (run sample_wf reserved_name_run) (mkFS ∅ ∅ ∅)).

Definition reserved_name_restart : Workflow :=
  init_recover sample_wf reserved_name_checkpoint.

(** A second history: a first run submits [A] and [B] and ends cleanly at
    line 10; the second daemon starts from that checkpoint, submits [C],
    writes the marker at line 20 and dies before it writes a checkpoint;
    the third daemon finds the old checkpoint and the marker. *)
Definition clean_end_checkpoint : FS :=
  snd (write_workflow_state
         (set_line 10 (run sample_wf [AddJob "A" "SUBMIT" (Some "1.0");
                                      AddJob "B" "SUBMIT" (Some "2.0")]))
         (mkFS ∅ ∅ ∅)).

Definition second_daemon : Workflow := init_recover sample_wf clean_end_checkpoint.

Definition crashed_run_files : FS :=
  snd (write_workflow_progress
         (set_line 20 (run second_daemon [AddJob "C" "SUBMIT" (Some "3.0")]))
         clean_end_checkpoint).

Definition third_daemon : Workflow := init_recover sample_wf crashed_run_files.

(** One checkpoint line as [write_workflow_state] formats it. *)
Definition state_line (kv : string * Z) : string :=
  fst kv ++ " " ++ PyStr.str_of_Z (snd kv) ++ NL.

(** Job [A] submitted once, with scheduler id 1.0. *)
Definition submitted_wf : Workflow :=
  run sample_wf [AddJob "A" "SUBMIT" (Some "1.0")].

Definition submitted_job : Job.t :=
  Job.set_output_counter 0
    (Job.set_sched_id (Some "1.0") (Job.set_state "SUBMIT" 0 (Job.new None "A" 1))).

(** Job [A] after its pre-script, with scheduler id 1.0 on record. *)
Definition prescript_wf : Workflow :=
  run sample_wf [AddJob "A" "PRE_SCRIPT_SUCCESS" None; JobUpdateInfo "A" 1 (Some "1.0")].

Definition prescript_job : Job.t :=
  Job.set_sched_id (Some "1.0")
    (Job.set_state "PRE_SCRIPT_SUCCESS" 0 (Job.new None "A" 1)).



(** The object a daemon builds in the directory with the marker at 5. *)
Definition recovering_wf : Workflow := init_recover sample_wf sample_fs_recover.

(** A workflow with a sub-workflow job whose nested log was planned under
    the original submit directory [/submit]. *)
Definition subdax_job : Job.t :=
  Job.mk None "subdax_inner" 1 (Some "SUBMIT") 0 (Some 0) (Some "1.0") 0 None None
    None None None None None None None None false None None None None
    (Some "/submit/inner/inner-0.dag.dagman.out").

Definition subdax_wf : Workflow :=
  set_original_submit_dir (Some "/submit")
    (set_job_info {[ "subdax_inner" := mkJobInfo (Some "/run/subdax_inner.sub")
                                         None None None None false None None ]}
       (set_jobs {[ ("subdax_inner", 1) := subdax_job ]}
          (set_jobs_map {[ "subdax_inner" := 1 ]} sample_wf))).

(** A run directory where only [inner.000] exists. *)
Definition subdax_fs : FS := mkFS ∅ ∅ {[ "/run/inner.000" ]}.

(** ** Further notions about runs *)

(** Every job name in [_jobs_map] is mapped to a live Job Instance. *)
Definition names_live (w : Workflow) : bool :=
  forallb (fun js : string * Z => bool_decide (is_Some (_jobs w !! js)))
          (map_to_list (_jobs_map w)).

(** Whether a call is [add_job(jobid, "SUBMIT", ...)]. *)
Definition is_submit_of (jobid : string) (c : call) : bool :=
  match c with
  | AddJob j st _ => bool_decide (j = jobid) && bool_decide (st = "SUBMIT")
  | _ => false
  end.

(** The number of SUBMIT signals for a job name in a run. *)
Definition submits (jobid : string) (calls : list call) : nat :=
  length (List.filter (is_submit_of jobid) calls).

(** The resubmission counter of a job name after [n] more SUBMIT signals:
    the first one of a name without a counter gives 0, every other one adds
    one. *)
Definition counter_after (n : nat) (c : option Z) : option Z :=
  match n, c with
  | O, _ => c
  | S n', None => Some (Z.of_nat n')
  | S n', Some c0 => Some (c0 + Z.of_nat n)
  end.

(** Whether a call is [change_wf_state("start")]. *)
Definition is_start (c : call) : bool :=
  match c with
  | ChangeWfState st => bool_decide (st = "start")
  | _ => false
  end.

(** The number of controller starts signalled in a run. *)
Definition starts (calls : list call) : nat :=
  length (List.filter is_start calls).

(** ** Further notions about the checkpoint *)

(** The three keys [write_workflow_state] writes besides the job names. *)
Definition reserved_keys : list string :=
  ["monitord_job_sequence"; "monitord_dagman_out_sequence";
   "monitord_workflow_restart_count"].

(** A job name without white space that is none of the reserved keys. *)
Definition plain_name (k : string) : bool :=
  PyStr.no_space k && negb (bool_decide (k ∈ reserved_keys)).

(** Every job name with a resubmission counter is plain. *)
Definition counters_plain (w : Workflow) : bool :=
  forallb (fun kv : string * Z => plain_name (fst kv))
          (map_to_list (_job_counters w)).

(** A daemon ends normally and the next one starts in the same directory:
    the checkpoint is written, the new object is built by [__init__] up to
    the recovery step. *)
Definition restart_from_checkpoint (w w0 : Workflow) (fs : FS) : Workflow :=
  init_recover w0 (snd (write_workflow_state w fs)).

(** ** Further sample objects *)

(** A first run: [A] is submitted twice and [B] once, the controller log
    is read up to line 10. *)
Definition first_run : list call :=
  [AddJob "A" "SUBMIT" (Some "1.0"); ChangeWfState "start";
   AddJob "A" "SUBMIT" (Some "2.0"); AddJob "B" "SUBMIT" (Some "3.0")].

Definition first_run_wf : Workflow := set_line 10 (run sample_wf first_run).

(** A run directory whose checkpoint has a line without a count. *)
Definition malformed_checkpoint : FS :=
  mkFS {[ "/run/monitord.info" :=
            ["monitord_job_sequence 3" ++ NL; "A 1" ++ NL; "garbage" ++ NL; "B 0" ++ NL] ]}
       ∅ ∅.

(** * Properties *)

Arguments output_text : simpl never.
Arguments PyStr.take : simpl never.

(** Case analysis on every [match] of the goal. *)
Ltac split_cases := repeat (case_match; simpl in *; try done).

(** ** Decimal text: printing and reading back *)

Section DecimalText.

Lemma uint_digits (d : Decimal.uint) :
  PyStr.all_chars PyStr.is_digit (NilEmpty.string_of_uint d) = true.
Proof. induction d; simpl; auto. Qed.

Lemma all_chars_impl (p q : ascii -> bool) (s : string) :
  (forall c, p c = true -> q c = true) ->
  PyStr.all_chars p s = true -> PyStr.all_chars q s = true.
Proof.
  intros Hpq. induction s as [|c s IH]; simpl; [done|].
  intros [Hc Hs]%andb_prop. rewrite (Hpq _ Hc), IH; auto.
Qed.

Lemma digit_not_space (c : ascii) : PyStr.is_digit c = true -> negb (PyStr.is_space c) = true.
Proof.
  unfold PyStr.is_digit, PyStr.is_space. generalize (nat_of_ascii c). intros n.
  intros [H1 H2]%andb_prop.
  apply Nat.leb_le in H1. apply Nat.leb_le in H2.
  destruct (Nat.eqb_spec n 32); [lia|].
  destruct (Nat.leb_spec 9 n), (Nat.leb_spec n 13); simpl; auto; lia.
Qed.

Lemma rstrip_no_space (s : string) :
  PyStr.no_space s = true -> PyStr.rstrip s = s.
Proof.
  unfold PyStr.no_space. induction s as [|c s IH]; simpl; [done|].
  intros [Hc Hs]%andb_prop. rewrite (IH Hs).
  apply negb_true_iff in Hc. rewrite Hc. by destruct s.
Qed.

Lemma lstrip_no_space (s : string) :
  PyStr.no_space s = true -> PyStr.lstrip s = s.
Proof.
  unfold PyStr.no_space. destruct s as [|c s]; simpl; [done|].
  intros [Hc _]%andb_prop. apply negb_true_iff in Hc. by rewrite Hc.
Qed.

Lemma strip_no_space (s : string) :
  PyStr.no_space s = true -> PyStr.strip s = s.
Proof.
  intros H. unfold PyStr.strip. rewrite lstrip_no_space by done.
  by apply rstrip_no_space.
Qed.

Lemma rstrip_app_NL (s : string) :
  PyStr.no_space s = true -> PyStr.rstrip (s ++ NL) = s.
Proof.
  unfold PyStr.no_space. induction s as [|c s IH]; simpl; [done|].
  intros [Hc Hs]%andb_prop. rewrite (IH Hs).
  apply negb_true_iff in Hc. rewrite Hc. by destruct s.
Qed.

Lemma no_space_app (s t : string) :
  PyStr.no_space (s ++ t) = (PyStr.no_space s && PyStr.no_space t)%bool.
Proof.
  unfold PyStr.no_space. induction s as [|c s IH]; simpl; [done|].
  by rewrite IH, andb_assoc.
Qed.

Lemma lstrip_app_no_space (s t : string) :
  s <> EmptyString -> PyStr.no_space s = true -> PyStr.lstrip (s ++ t) = s ++ t.
Proof.
  unfold PyStr.no_space. destruct s as [|c s]; [done|]. simpl.
  intros _ [Hc _]%andb_prop. apply negb_true_iff in Hc. by rewrite Hc.
Qed.

Lemma strip_app_NL (s : string) :
  PyStr.no_space s = true -> PyStr.strip (s ++ NL) = s.
Proof.
  intros H. unfold PyStr.strip. destruct s as [|c s]; [done|].
  rewrite lstrip_app_no_space by done. by apply rstrip_app_NL.
Qed.

Lemma str_of_Z_no_space (z : Z) : PyStr.no_space (PyStr.str_of_Z z) = true.
Proof.
  assert (Hu : forall d, PyStr.no_space (NilZero.string_of_uint d) = true).
  { intros d. unfold PyStr.no_space.
    apply all_chars_impl with (p := PyStr.is_digit); [apply digit_not_space|].
    destruct d; try apply (uint_digits (_ _)); done. }
  unfold PyStr.str_of_Z. destruct (Z.to_int z) as [d|d]; simpl; [apply Hu|].
  unfold PyStr.no_space in *. simpl. apply Hu.
Qed.


Lemma digits_value_uint (d : Decimal.uint) :
  d <> Decimal.Nil ->
  PyStr.digits_value (NilEmpty.string_of_uint d) = Some (Z.of_uint d).
Proof.
  intros Hd. unfold PyStr.digits_value.
  destruct (NilEmpty.string_of_uint d) eqn:E.
  - by destruct d.
  - by rewrite <- E, NilEmpty.usu.
Qed.

Lemma Z_of_uint_pos (p : positive) : Z.of_uint (Pos.to_uint p) = Z.pos p.
Proof. unfold Z.of_uint. by rewrite DecimalPos.Unsigned.of_to. Qed.

Lemma py_int_digits (d : Decimal.uint) :
  d <> Decimal.Nil ->
  PyStr.py_int (NilEmpty.string_of_uint d) = Some (Z.of_uint d).
Proof.
  intros Hd. unfold PyStr.py_int.
  rewrite strip_no_space.
  2:{ apply all_chars_impl with (p := PyStr.is_digit);
        [apply digit_not_space | apply uint_digits]. }
  rewrite <- digits_value_uint by done.
  destruct d; try done; reflexivity.
Qed.

(** [int("%d" % z) == z] *)
Lemma py_int_str_of_Z (z : Z) : PyStr.py_int (PyStr.str_of_Z z) = Some z.
Proof.
  destruct z as [|p|p]; [reflexivity| |].
  - unfold PyStr.str_of_Z. simpl.
    assert (Hn := DecimalPos.Unsigned.to_uint_nonnil p).
    replace (NilZero.string_of_uint (Pos.to_uint p))
      with (NilEmpty.string_of_uint (Pos.to_uint p)) by (by destruct (Pos.to_uint p)).
    by rewrite py_int_digits, Z_of_uint_pos.
  - unfold PyStr.py_int. rewrite strip_no_space by apply str_of_Z_no_space.
    unfold PyStr.str_of_Z. simpl.
    assert (Hn := DecimalPos.Unsigned.to_uint_nonnil p).
    replace (NilZero.string_of_uint (Pos.to_uint p))
      with (NilEmpty.string_of_uint (Pos.to_uint p)) by (by destruct (Pos.to_uint p)).
    by rewrite digits_value_uint, Z_of_uint_pos.
Qed.

(** [int(("%d\n" % z).strip()) == z] *)
Lemma py_int_line (z : Z) :
  PyStr.py_int (PyStr.strip (PyStr.str_of_Z z ++ NL)) = Some z.
Proof.
  rewrite strip_app_NL by apply str_of_Z_no_space. apply py_int_str_of_Z.
Qed.

End DecimalText.

(** ** The sink: a failure disables it for good *)

Section SinkDisabled.

Lemma output_to_db_disabled (w : Workflow) (event : string) (kw : kwargs) :
  _database_disabled w = true -> output_to_db w event kw = w.
Proof. intros H. unfold output_to_db. by rewrite H; destruct (_sink w). Qed.

Lemma db_send_wf_state_disabled (w : Workflow) (state : option string) :
  _database_disabled w = true ->
  _database_disabled (db_send_wf_state w state) = true
  /\ sink_calls (db_send_wf_state w state) = sink_calls w.
Proof.
  intros H. unfold db_send_wf_state.
  destruct (_sink w) eqn:Hs, state as [st|]; try done.
  repeat case_match; simplify_eq; rewrite output_to_db_disabled; simpl; done.
Qed.

Lemma fold_delete_job_sink (keys : list (string * Z)) (w : Workflow) :
  _database_disabled (fold_left delete_job keys w) = _database_disabled w
  /\ sink_calls (fold_left delete_job keys w) = sink_calls w
  /\ _sink (fold_left delete_job keys w) = _sink w.
Proof.
  revert w. induction keys as [|k keys IH]; intros w; simpl; [done|].
  destruct (IH (delete_job w k)) as (-> & -> & ->). done.
Qed.

Lemma job_end_event_sink (w : Workflow) (my_job : Job.t) (status : option Z) :
  _database_disabled (snd (job_end_event w my_job status)) = _database_disabled w
  /\ sink_calls (snd (job_end_event w my_job status)) = sink_calls w
  /\ _sink (snd (job_end_event w my_job status)) = _sink w.
Proof.
  unfold job_end_event, job_end_texts.
  destruct (_store_stdout_stderr w); [|done].
  destruct (Job._stdout_text my_job) as [t1|], (Job._stderr_text my_job) as [t2|];
    repeat match goal with
           | |- context [output_text ?t] => destruct (output_text t) as [? []]
           end; done.
Qed.

Lemma apply_call_disabled (w : Workflow) (c : call) :
  _database_disabled w = true ->
  _database_disabled (apply_call w c) = true
  /\ sink_calls (apply_call w c) = sink_calls w.
Proof.
  intros H. destruct c; simpl.
  - unfold add_job, find_job_submit_seq, find_jobid, add_job_counter.
    split_cases; simplify_eq; simpl; done.
  - unfold job_update_info. split_cases.
  - unfold start_wf. by destruct (fold_delete_job_sink (jobs_to_delete w)
      (set_log (log (logger DEBUG "DAGMan restarted, cleaning up old job information..." [] w)
                ++ jobs_kept_log w)
         (logger DEBUG "DAGMan restarted, cleaning up old job information..." [] w)))
      as (-> & -> & _).
  - unfold change_wf_state.
    match goal with |- context [check_notifications ?x] => set (w1 := x) end.
    assert (H1 : _database_disabled w1 = true /\ sink_calls w1 = sink_calls w).
    { subst w1. split_cases. }
    destruct (check_notifications w1) as [notify w2] eqn:Hn.
    assert (H2 : _database_disabled w2 = true /\ sink_calls w2 = sink_calls w).
    { revert Hn. unfold check_notifications.
      split_cases; intros; simplify_eq; done. }
    match goal with |- context [db_send_wf_state ?x _] => set (w3 := x) end.
    assert (H3 : _database_disabled w3 = true /\ sink_calls w3 = sink_calls w).
    { subst w3. split_cases. }
    destruct H3 as [Hd Hc].
    destruct (db_send_wf_state_disabled _ (Some state) Hd) as [-> ->]. done.
  - by rewrite output_to_db_disabled.
  - by apply db_send_wf_state_disabled.
  - unfold db_send_job_end_at, db_send_job_end.
    destruct (_jobs w !! (jobid, job_submit_seq)) as [my_job|]; [|done].
    destruct (_sink w) eqn:Hs; [|done].
    destruct (job_end_event_sink w my_job status) as (Hd & Hc & _).
    destruct (job_end_event w my_job status) as [kw w1]. simpl in *.
    rewrite output_to_db_disabled by congruence. simpl. split; congruence.
Qed.

Lemma run_disabled (calls : list call) (w : Workflow) :
  _database_disabled w = true ->
  _database_disabled (run w calls) = true
  /\ sink_calls (run w calls) = sink_calls w.
Proof.
  revert w. induction calls as [|c calls IH]; intros w H; simpl; [done|].
  destruct (apply_call_disabled w c H) as [Hd Hc].
  destruct (IH _ Hd) as [-> ->]. done.
Qed.

(** C4.  When the sink's [send] raises, [output_to_db] still returns: it
    records the call, logs three warnings and sets the database-disabled
    flag; from then on no call made on the object reaches the sink any
    more and the flag stays set, whatever calls follow in the run. *)
Theorem output_to_db_failure_disables_sink
    (w : Workflow) (sink : Sink) (event : string) (kw : kwargs) (later : list call) :
  _sink w = Some sink ->
  _database_disabled w = false ->
  sink (sink_calls w) event kw = false ->
  let w' := output_to_db w event kw in
  _database_disabled w' = true
  /\ sink_calls w' = (sink_calls w ++ [(event, kw)])%list
  /\ log w' = (log w ++
       [Log WARNING "NL-LOAD-ERROR --> %s - %s" [str_opt (_wf_uuid w); dax_tag w];
        Log WARNING "error sending event: %s --> %s" [event; repr_kwargs kw];
        Log WARNING "%s" ["traceback.format_exc()"]])%list
  /\ _database_disabled (run w' later) = true
  /\ sink_calls (run w' later) = sink_calls w'
  /\ (forall e k, output_to_db (run w' later) e k = run w' later).
Proof.
  intros Hs Hd Hf w'.
  assert (Hd' : _database_disabled w' = true).
  { subst w'. unfold output_to_db. by rewrite Hs, Hd, Hf. }
  split; [done|]. split.
  { subst w'. unfold output_to_db. by rewrite Hs, Hd, Hf. }
  split.
  { subst w'. unfold output_to_db. rewrite Hs, Hd, Hf. simpl.
    by rewrite <- !app_assoc. }
  destruct (run_disabled later w' Hd') as [Hr Hc].
  repeat split; [done..|]. intros e k. by apply output_to_db_disabled.
Qed.

End SinkDisabled.

(** ** Attributes that a run leaves alone *)

Section Static.

Ltac static := unfold same_static; simpl; repeat split; congruence.

Lemma same_static_refl (w : Workflow) : same_static w w.
Proof. static. Qed.

Lemma same_static_trans (a b c : Workflow) :
  same_static a b -> same_static b c -> same_static a c.
Proof. unfold same_static. intros. destruct_and!. repeat split; congruence. Qed.

Lemma output_to_db_static (w : Workflow) (event : string) (kw : kwargs) :
  same_static w (output_to_db w event kw).
Proof. unfold output_to_db. split_cases; static. Qed.

Lemma check_notifications_static (w : Workflow) :
  same_static w (snd (check_notifications w)).
Proof. unfold check_notifications. split_cases; static. Qed.

Lemma db_send_wf_state_static (w : Workflow) (state : option string) :
  same_static w (db_send_wf_state w state).
Proof.
  unfold db_send_wf_state.
  destruct (_sink w), state; try apply same_static_refl.
  repeat case_match; simplify_eq;
    (eapply same_static_trans; [|apply output_to_db_static]); static.
Qed.

Lemma job_end_event_static (w : Workflow) (my_job : Job.t) (status : option Z) :
  same_static w (snd (job_end_event w my_job status)).
Proof.
  unfold job_end_event, job_end_texts.
  destruct (_store_stdout_stderr w); [|apply same_static_refl].
  destruct (Job._stdout_text my_job) as [t1|], (Job._stderr_text my_job) as [t2|];
    repeat match goal with
           | |- context [output_text ?t] => destruct (output_text t) as [? []]
           end; static.
Qed.

Lemma fold_delete_job_static (keys : list (string * Z)) (w : Workflow) :
  same_static w (fold_left delete_job keys w).
Proof.
  revert w. induction keys as [|k keys IH]; intros w; simpl;
    [apply same_static_refl|].
  eapply same_static_trans; [|apply IH]. static.
Qed.

Lemma add_job_static (w : Workflow) (jobid job_state : string) (sched_id : option string) :
  same_static w (snd (add_job w jobid job_state sched_id)).
Proof.
  unfold add_job, find_job_submit_seq, find_jobid, add_job_counter.
  split_cases; simplify_eq; static.
Qed.

Lemma change_wf_state_static (w : Workflow) (state : string) :
  same_static w (change_wf_state w state).
Proof.
  unfold change_wf_state.
  match goal with |- context [check_notifications ?x] => set (w1 := x) end.
  assert (H1 : same_static w w1) by (subst w1; split_cases; static).
  pose proof (check_notifications_static w1) as H2.
  destruct (check_notifications w1) as [notify w2]. simpl in H2.
  eapply same_static_trans; [|apply db_send_wf_state_static].
  eapply same_static_trans; [exact H1|].
  eapply same_static_trans; [exact H2|]. split_cases; static.
Qed.

Lemma apply_call_static (w : Workflow) (c : call) : same_static w (apply_call w c).
Proof.
  destruct c; simpl.
  - apply add_job_static.
  - unfold job_update_info. split_cases; static.
  - unfold start_wf. eapply same_static_trans; [|apply fold_delete_job_static]. static.
  - apply change_wf_state_static.
  - apply output_to_db_static.
  - apply db_send_wf_state_static.
  - unfold db_send_job_end_at, db_send_job_end.
    destruct (_jobs w !! (jobid, job_submit_seq)) as [my_job|]; [|apply same_static_refl].
    destruct (_sink w); [|static].
    pose proof (job_end_event_static w my_job status) as H.
    destruct (job_end_event w my_job status) as [kw w1]. simpl in *.
    eapply same_static_trans; [exact H|].
    eapply same_static_trans; [apply (output_to_db_static w1 "job_inst.main.end" kw)|].
    static.
Qed.

Lemma run_static (calls : list call) (w : Workflow) : same_static w (run w calls).
Proof.
  revert w. induction calls as [|c calls IH]; intros w; simpl;
    [apply same_static_refl|].
  eapply same_static_trans; [apply apply_call_static | apply IH].
Qed.

End Static.

(** ** The recovery marker *)

Section RecoveryMarker.



Lemma stored_offset_read (w : Workflow) (fs : FS) (n : Z) :
  stored_offset w fs = Some n ->
  _previous_processed_line (read_workflow_progress w fs) = n.
Proof.
  unfold stored_offset, read_workflow_progress.
  destruct (fs_files fs !! wf_file w MONITORD_RECOVER_FILE) as [lines|]; [|done].
  destruct (read_progress_lines lines) as [[m|]|]; try done. by intros [= ->].
Qed.





End RecoveryMarker.

(** ** Recovery mode *)

Section RecoveryMode.

Lemma read_state_lines_static (lines : list string) (w : Workflow) (my_fn : string) :
  same_static w (read_state_lines w my_fn lines).
Proof.
  revert w. induction lines as [|l lines IH]; intros w; simpl;
    [apply same_static_refl|].
  destruct (read_state_line w l) as [w'|] eqn:E.
  - eapply same_static_trans; [|apply IH].
    revert E. unfold read_state_line. split_cases; intros; simplify_eq;
      unfold same_static; simpl; done.
  - unfold same_static; simpl; done.
Qed.

Lemma read_workflow_state_static (w : Workflow) (fs : FS) :
  same_static w (read_workflow_state w fs).
Proof.
  unfold read_workflow_state. case_match; [apply read_state_lines_static|].
  unfold same_static; simpl; done.
Qed.

Lemma wf_file_static (w w' : Workflow) (name : string) :
  same_static w w' -> wf_file w' name = wf_file w name.
Proof.
  unfold same_static, wf_file. intros. destruct_and!.
  repeat match goal with H : _ = _ |- _ => rewrite H; clear H end. done.
Qed.

Lemma fold_delete_job_notif (keys : list (string * Z)) (w : Workflow) :
  notif_calls (fold_left delete_job keys w) = notif_calls w.
Proof.
  revert w. induction keys as [|k keys IH]; intros w; simpl; [done|].
  by rewrite IH.
Qed.

Lemma output_to_db_notif (w : Workflow) (event : string) (kw : kwargs) :
  notif_calls (output_to_db w event kw) = notif_calls w.
Proof. unfold output_to_db. split_cases. Qed.

Lemma db_send_wf_state_notif (w : Workflow) (state : option string) :
  notif_calls (db_send_wf_state w state) = notif_calls w.
Proof.
  unfold db_send_wf_state. destruct (_sink w), state; try done.
  repeat case_match; simplify_eq; by rewrite output_to_db_notif.
Qed.

Lemma job_end_event_notif (w : Workflow) (my_job : Job.t) (status : option Z) :
  notif_calls (snd (job_end_event w my_job status)) = notif_calls w.
Proof.
  unfold job_end_event, job_end_texts.
  destruct (_store_stdout_stderr w); [|done].
  destruct (Job._stdout_text my_job) as [t1|], (Job._stderr_text my_job) as [t2|];
    repeat match goal with
           | |- context [output_text ?t] => destruct (output_text t) as [? []]
           end; done.
Qed.

(** While the reader is below the recovered offset no call notifies. *)
Lemma apply_call_silent (w : Workflow) (c : call) :
  _line w < _previous_processed_line w ->
  notif_calls (apply_call w c) = notif_calls w.
Proof.
  intros Hlt. destruct c; simpl.
  - unfold add_job, find_job_submit_seq, find_jobid, add_job_counter.
    split_cases; simplify_eq; done.
  - unfold job_update_info. split_cases.
  - unfold start_wf. by rewrite fold_delete_job_notif.
  - unfold change_wf_state.
    match goal with |- context [check_notifications ?x] => set (w1 := x) end.
    assert (H1 : _line w1 = _line w
                 /\ _previous_processed_line w1 = _previous_processed_line w
                 /\ notif_calls w1 = notif_calls w) by (subst w1; split_cases).
    destruct H1 as (Hl & Hp & Hn).
    destruct (check_notifications w1) as [notify w2] eqn:Hc.
    rewrite db_send_wf_state_notif.
    revert Hc. unfold check_notifications.
    destruct (_enable_notifications w1); simpl; [|by intros [= <- <-]].
    rewrite Hl, Hp. destruct (Z.ltb_spec (_line w) (_previous_processed_line w));
      [by intros [= <- <-] | lia].
  - apply output_to_db_notif.
  - apply db_send_wf_state_notif.
  - unfold db_send_job_end_at, db_send_job_end.
    destruct (_jobs w !! (jobid, job_submit_seq)) as [my_job|]; [|done].
    destruct (_sink w); [|done].
    pose proof (job_end_event_notif w my_job status) as H.
    destruct (job_end_event w my_job status) as [kw w1]. simpl in *.
    by rewrite output_to_db_notif.
Qed.

Lemma run_silent (calls : list call) (w : Workflow) :
  _line w < _previous_processed_line w ->
  notif_calls (run w calls) = notif_calls w.
Proof.
  revert w. induction calls as [|c calls IH]; intros w Hlt; simpl; [done|].
  destruct (apply_call_static w c) as (Hl & Hp & _).
  rewrite IH by lia. by apply apply_call_silent.
Qed.

(** C3, as the code has it.  With replay mode off and a recovery marker
    that records a non-zero offset [P], construction enters recovery mode:
    [P] becomes the previous-processed line and the last-processed line is
    reset to zero, so the whole log is scanned again; for every line
    strictly before [P], [check_notifications] answers False and no call of
    a run issues a notification.  Events are not held back: sending to the
    sink does not look at the line number. *)
Theorem recovery_mode_rescans_and_skips_notifications
    (w : Workflow) (fs : FS) (P : Z) :
  _replay_mode w = false ->
  stored_offset w fs = Some P ->
  P <> 0 ->
  let w' := init_recover w fs in
  _previous_processed_line w' = P
  /\ _last_processed_line w' = 0
  /\ (forall n calls, n < P ->
        fst (check_notifications (set_line n w')) = false
        /\ notif_calls (run (set_line n w') calls) = notif_calls w')
  /\ (forall n event kw sink,
        _sink w' = Some sink -> _database_disabled w' = false ->
        sink_calls (output_to_db (set_line n w') event kw)
        = (sink_calls w' ++ [(event, kw)])%list).
Proof.
  intros Hr Hoff HP w'.
  assert (Hprev : _previous_processed_line w' = P).
  { subst w'. unfold init_recover. rewrite Hr.
    pose proof (read_workflow_state_static w fs) as Hst.
    assert (Hoff' : stored_offset (read_workflow_state w fs) fs = Some P).
    { unfold stored_offset in *. by rewrite (wf_file_static _ _ _ Hst). }
    rewrite (stored_offset_read _ _ _ Hoff').
    rewrite bool_decide_eq_true_2 by done. simpl.
    by apply stored_offset_read. }
  split; [done|]. split.
  { subst w'. unfold init_recover in *. rewrite Hr in *.
    case_bool_decide as Hd; [done|]. congruence. }
  split.
  - intros n calls Hn. split.
    + unfold check_notifications. simpl. rewrite Hprev.
      destruct (_enable_notifications w'); simpl; [|done].
      by destruct (Z.ltb_spec n P); [|lia].
    + rewrite run_silent; [done|]. simpl. lia.
  - intros n event kw sink Hs Hd. unfold output_to_db. simpl.
    rewrite Hs, Hd. by destruct (sink _ _ _).
Qed.

End RecoveryMode.

(** ** The job index: [find_job_submit_seq] and [add_job] *)

Section JobIndex.

(** [find_job_submit_seq] only logs. *)
Lemma find_job_submit_seq_log (w : Workflow) (jobid : string) (sched_id : option string) :
  exists l, snd (find_job_submit_seq w jobid sched_id) = set_log l w.
Proof.
  unfold find_job_submit_seq, find_jobid.
  split_cases; try (by exists (log w); destruct w); eexists; reflexivity.
Qed.

Lemma find_job_submit_seq_Some (w : Workflow) (jobid : string)
    (sched_id : option string) (s : Z) :
  fst (find_job_submit_seq w jobid sched_id) = Some s ->
  _jobs_map w !! jobid = Some s /\ is_Some (_jobs w !! (jobid, s)).
Proof.
  unfold find_job_submit_seq, find_jobid.
  split_cases; intros; simplify_eq; eauto.
Qed.

Lemma add_job_counter_fields (w : Workflow) (jobid st : string) (s : Z) :
  _job_submit_seq (add_job_counter w jobid st s) = _job_submit_seq w
  /\ _jobs_map (add_job_counter w jobid st s) = _jobs_map w
  /\ _jobs (add_job_counter w jobid st s)
     = (if bool_decide (st = "SUBMIT")
        then alter (Job.set_output_counter
                      (match _job_counters w !! jobid with
                       | Some n => n + 1
                       | None => 0
                       end)) (jobid, s) (_jobs w)
        else _jobs w).
Proof. unfold add_job_counter. by case_bool_decide. Qed.

(** The creating branch of [add_job]. *)
Lemma add_job_created (w : Workflow) (jobid st : string) (sched_id : option string) :
  add_job_creates w jobid sched_id = true ->
  fst (add_job w jobid st sched_id) = Some (_job_submit_seq w)
  /\ _job_submit_seq (snd (add_job w jobid st sched_id)) = _job_submit_seq w + 1
  /\ _jobs_map (snd (add_job w jobid st sched_id))
     = <[jobid := _job_submit_seq w]> (_jobs_map w)
  /\ exists j' : Job.t,
       _jobs (snd (add_job w jobid st sched_id))
       = <[(jobid, _job_submit_seq w) := j']> (_jobs w)
       /\ Job._exec_job_id j' = jobid
       /\ Job._job_submit_seq j' = _job_submit_seq w
       /\ Job._job_state j' = Some st
       /\ Job._sched_id j' = sched_id.
Proof.
  unfold add_job_creates, add_job.
  destruct (find_job_submit_seq_log w jobid sched_id) as [l Hl].
  destruct (find_job_submit_seq w jobid sched_id) as [found w1]. simpl in *. subst w1.
  destruct found; [done|]. simpl. intros Hfree%bool_decide_eq_true.
  rewrite Hfree. simpl.
  match goal with |- context [add_job_counter ?x _ _ _] =>
    destruct (add_job_counter_fields x jobid st (_job_submit_seq w)) as (-> & -> & ->)
  end. simpl.
  repeat split. case_bool_decide.
  - rewrite alter_insert_eq. eexists. split; [reflexivity|]. done.
  - eexists. split; [reflexivity|]. done.
Qed.

(** Every other branch keeps the counter, the map of names and the set of
    live instances, and touches at most the instance the name maps to. *)
Lemma add_job_not_created (w : Workflow) (jobid st : string) (sched_id : option string) :
  add_job_creates w jobid sched_id = false ->
  _job_submit_seq (snd (add_job w jobid st sched_id)) = _job_submit_seq w
  /\ _jobs_map (snd (add_job w jobid st sched_id)) = _jobs_map w
  /\ (forall k, is_Some (_jobs (snd (add_job w jobid st sched_id)) !! k)
                <-> is_Some (_jobs w !! k))
  /\ (forall k, Some k <> (pair jobid <$> _jobs_map w !! jobid) ->
                _jobs (snd (add_job w jobid st sched_id)) !! k = _jobs w !! k).
Proof.
  unfold add_job_creates, add_job.
  pose proof (find_job_submit_seq_Some w jobid sched_id) as HS.
  destruct (find_job_submit_seq_log w jobid sched_id) as [l Hl].
  destruct (find_job_submit_seq w jobid sched_id) as [found w1]. simpl in *. subst w1.
  destruct found as [s|]; simpl.
  - intros _. destruct (HS s eq_refl) as [Hm [j Hj]]. rewrite Hj. simpl.
    match goal with |- context [add_job_counter ?x _ _ _] =>
      destruct (add_job_counter_fields x jobid st s) as (-> & -> & ->)
    end. simpl. split; [done|]. split; [done|]. rewrite Hm. simpl. split.
    + intros k. case_bool_decide.
      * rewrite lookup_alter_is_Some.
        destruct (decide (k = (jobid, s))) as [->|]; [|by rewrite lookup_insert_ne].
        rewrite lookup_insert_eq, Hj. split; eauto.
      * destruct (decide (k = (jobid, s))) as [->|]; [|by rewrite lookup_insert_ne].
        rewrite lookup_insert_eq, Hj. split; eauto.
    + intros k Hk. assert (k <> (jobid, s)) by congruence.
      case_bool_decide; rewrite ?lookup_alter_ne by done; by rewrite lookup_insert_ne.
  - intros Hfree%bool_decide_eq_false.
    destruct (_jobs w !! (jobid, _job_submit_seq w)); [|done]. simpl. done.
Qed.

End JobIndex.

(** ** Eviction at a controller (re)start *)

Section Eviction.

Lemma fold_delete_job_jobs (keys : list (string * Z)) (w : Workflow) (k : string * Z) :
  _jobs (fold_left delete_job keys w) !! k
  = if decide (k ∈ keys) then None else _jobs w !! k.
Proof.
  revert w. induction keys as [|k0 keys IH]; intros w.
  - cbn [fold_left]. case_decide; [set_solver | done].
  - cbn [fold_left]. rewrite IH. simpl.
    repeat case_decide; try done; try set_solver.
    + assert (k = k0) as -> by set_solver. by rewrite lookup_delete_eq.
    + rewrite lookup_delete_ne; [done | set_solver].
Qed.

Lemma fold_delete_job_names (keys : list (string * Z)) (w : Workflow) (j : string) :
  let w' := fold_left delete_job keys w in
  let gone := j ∈ map fst keys in
  _jobs_map w' !! j = (if decide gone then None else _jobs_map w !! j)
  /\ _walltime w' !! j = (if decide gone then None else _walltime w !! j)
  /\ _job_site w' !! j = (if decide gone then None else _job_site w !! j).
Proof.
  revert w. induction keys as [|k0 keys IH]; intros w.
  - cbn [fold_left map]. destruct (decide (j ∈ [])) as [Hin|]; [|done].
    by apply elem_of_nil in Hin.
  - cbn [fold_left map]. cbv zeta in IH.
    destruct (IH (delete_job w k0)) as (-> & -> & ->). simpl.
    destruct (decide (j ∈ map fst keys)) as [Hin|Hnin];
      destruct (decide (j ∈ fst k0 :: map fst keys)) as [Hin'|Hnin']; try done.
    + exfalso. apply Hnin'. by apply list_elem_of_further.
    + apply elem_of_cons in Hin' as [->|?]; [|done]. by rewrite !lookup_delete_eq.
    + assert (fst k0 <> j) by (intros <-; apply Hnin', list_elem_of_here).
      by rewrite !lookup_delete_ne.
Qed.

Lemma fold_delete_job_counters (keys : list (string * Z)) (w : Workflow) :
  _job_submit_seq (fold_left delete_job keys w) = _job_submit_seq w
  /\ _restart_count (fold_left delete_job keys w) = _restart_count w
  /\ _job_counters (fold_left delete_job keys w) = _job_counters w.
Proof.
  revert w. induction keys as [|k0 keys IH]; intros w; simpl; [done|].
  by destruct (IH (delete_job w k0)) as (-> & -> & ->).
Qed.

Lemma elem_of_jobs_to_delete (w : Workflow) (k : string * Z) :
  k ∈ jobs_to_delete w
  <-> exists my_job, _jobs w !! k = Some my_job /\ job_done w (fst k) my_job = true.
Proof.
  unfold jobs_to_delete. rewrite list_elem_of_In, in_flat_map. split.
  - intros [[k' j] [Hin Hk]]. apply list_elem_of_In, elem_of_map_to_list in Hin.
    simpl in Hk. destruct (job_done w (fst k') j) eqn:E; [|done].
    destruct Hk as [->|[]]. eauto.
  - intros [j [Hj Hd]]. exists (k, j). split.
    + by apply list_elem_of_In, elem_of_map_to_list.
    + simpl. rewrite Hd. by left.
Qed.


Lemma start_wf_jobs (w : Workflow) (k : string * Z) :
  _jobs (start_wf w) !! k
  = match _jobs w !! k with
    | Some my_job => if job_done w (fst k) my_job then None else Some my_job
    | None => None
    end.
Proof.
  unfold start_wf. rewrite fold_delete_job_jobs. simpl.
  destruct (decide (k ∈ jobs_to_delete w)) as [Hin|Hnin].
  - apply elem_of_jobs_to_delete in Hin as [j [-> ->]]. done.
  - destruct (_jobs w !! k) as [j|] eqn:Hj; [|done].
    destruct (job_done w (fst k) j) eqn:Hd; [|done].
    exfalso. apply Hnin, elem_of_jobs_to_delete. eauto.
Qed.


End Eviction.

(** ** Runs: the counter, the map of names and the instances created *)

Section Runs.

Lemma output_to_db_index (w : Workflow) (event : string) (kw : kwargs) :
  _jobs (output_to_db w event kw) = _jobs w
  /\ _jobs_map (output_to_db w event kw) = _jobs_map w
  /\ _job_submit_seq (output_to_db w event kw) = _job_submit_seq w.
Proof. unfold output_to_db. split_cases. Qed.

Lemma db_send_wf_state_index (w : Workflow) (state : option string) :
  _jobs (db_send_wf_state w state) = _jobs w
  /\ _jobs_map (db_send_wf_state w state) = _jobs_map w
  /\ _job_submit_seq (db_send_wf_state w state) = _job_submit_seq w.
Proof.
  unfold db_send_wf_state. destruct (_sink w), state; try done.
  repeat case_match; simplify_eq;
    match goal with |- context [output_to_db ?x ?e ?k] =>
      destruct (output_to_db_index x e k) as (-> & -> & ->) end; done.
Qed.

Lemma change_wf_state_index (w : Workflow) (state : string) :
  _jobs (change_wf_state w state) = _jobs w
  /\ _jobs_map (change_wf_state w state) = _jobs_map w
  /\ _job_submit_seq (change_wf_state w state) = _job_submit_seq w.
Proof.
  unfold change_wf_state.
  match goal with |- context [check_notifications ?x] => set (w1 := x) end.
  assert (H1 : _jobs w1 = _jobs w /\ _jobs_map w1 = _jobs_map w
               /\ _job_submit_seq w1 = _job_submit_seq w) by (subst w1; split_cases).
  destruct H1 as (<- & <- & <-).
  destruct (check_notifications w1) as [notify w2] eqn:Hc.
  assert (H2 : _jobs w2 = _jobs w1 /\ _jobs_map w2 = _jobs_map w1
               /\ _job_submit_seq w2 = _job_submit_seq w1).
  { revert Hc. unfold check_notifications. split_cases; intros; simplify_eq; done. }
  destruct H2 as (<- & <- & <-).
  match goal with |- context [db_send_wf_state ?x ?st] =>
    destruct (db_send_wf_state_index x st) as (-> & -> & ->) end.
  split_cases.
Qed.

Lemma job_end_event_index (w : Workflow) (my_job : Job.t) (status : option Z) :
  _jobs (snd (job_end_event w my_job status)) = _jobs w
  /\ _jobs_map (snd (job_end_event w my_job status)) = _jobs_map w
  /\ _job_submit_seq (snd (job_end_event w my_job status)) = _job_submit_seq w.
Proof.
  unfold job_end_event, job_end_texts.
  destruct (_store_stdout_stderr w); [|done].
  destruct (Job._stdout_text my_job) as [t1|], (Job._stderr_text my_job) as [t2|];
    repeat match goal with
           | |- context [output_text ?t] => destruct (output_text t) as [? []]
           end; done.
Qed.

Lemma db_send_job_end_at_index (w : Workflow) (jobid : string) (s : Z) (status : option Z) :
  (forall k, is_Some (_jobs (db_send_job_end_at w jobid s status) !! k)
             <-> is_Some (_jobs w !! k))
  /\ _jobs_map (db_send_job_end_at w jobid s status) = _jobs_map w
  /\ _job_submit_seq (db_send_job_end_at w jobid s status) = _job_submit_seq w.
Proof.
  unfold db_send_job_end_at, db_send_job_end.
  destruct (_jobs w !! (jobid, s)) as [my_job|] eqn:Hj; [|done].
  assert (Hdom : forall (j' : Job.t) k,
             is_Some (<[(jobid, s) := j']> (_jobs w) !! k) <-> is_Some (_jobs w !! k)).
  { intros j' k. destruct (decide (k = (jobid, s))) as [->|].
    - rewrite lookup_insert_eq, Hj. split; eauto.
    - by rewrite lookup_insert_ne. }
  destruct (_sink w).
  - destruct (job_end_event_index w my_job status) as (H1 & H2 & H3).
    destruct (job_end_event w my_job status) as [kw w1]. simpl in *.
    destruct (output_to_db_index w1 "job_inst.main.end" kw) as (H4 & H5 & H6).
    rewrite H4, H5, H6, H1, H2, H3. done.
  - simpl. done.
Qed.

(** What one call does to the counter, to the map of names and to the set
    of live instances, in terms of the instances it creates. *)
Lemma apply_call_index (w : Workflow) (c : call) :
  _job_submit_seq (apply_call w c)
  = _job_submit_seq w + Z.of_nat (length (created w c))
  /\ match created w c with
     | e :: _ => _jobs_map (apply_call w c) = <[fst e := snd e]> (_jobs_map w)
     | [] => forall j s, _jobs_map (apply_call w c) !! j = Some s ->
                         _jobs_map w !! j = Some s
     end
  /\ (forall k, is_Some (_jobs (apply_call w c) !! k) ->
                is_Some (_jobs w !! k) \/ k ∈ created w c).
Proof.
  destruct c; simpl.
  - destruct (add_job_creates w jobid sched_id) eqn:E.
    + destruct (add_job_created w jobid job_state sched_id E)
        as (_ & -> & -> & j' & -> & _).
      simpl. split; [lia|]. split; [done|]. intros k.
      destruct (decide (k = (jobid, _job_submit_seq w))) as [->|];
        [right; set_solver | rewrite lookup_insert_ne by done; by left].
    + destruct (add_job_not_created w jobid job_state sched_id E)
        as (-> & -> & Hd & _).
      simpl. split; [lia|]. split; [done|]. intros k Hk. left. by apply Hd.
  - unfold job_update_info. split_cases; (split; [lia|]); (split; [done|]);
      intros k Hk; left; try done.
    destruct (decide (k = (jobid, job_submit_seq))) as [->|]; [eauto|].
    by rewrite lookup_insert_ne in Hk.
  - unfold start_wf.
    match goal with |- context [fold_left delete_job ?ks ?x] =>
      destruct (fold_delete_job_counters ks x) as (-> & _ & _);
      pose proof (fold_delete_job_names ks x) as Hn;
      pose proof (fold_delete_job_jobs ks x) as Hj end.
    simpl in *. split; [lia|]. split.
    + intros j s. destruct (Hn j) as (-> & _). by case_decide.
    + intros k. rewrite Hj. case_decide; [by intros [? ?] | by left].
  - destruct (change_wf_state_index w state) as (-> & -> & ->).
    split; [lia|]. split; [done|]. by left.
  - destruct (output_to_db_index w event kw) as (-> & -> & ->).
    split; [lia|]. split; [done|]. by left.
  - destruct (db_send_wf_state_index w state) as (-> & -> & ->).
    split; [lia|]. split; [done|]. by left.
  - destruct (db_send_job_end_at_index w jobid job_submit_seq status) as (Hd & -> & ->).
    split; [lia|]. split; [done|]. intros k Hk. left. by apply Hd.
Qed.

Lemma created_seq (w : Workflow) (c : call) (e : string * Z) :
  e ∈ created w c -> snd e = _job_submit_seq w /\ created w c = [e].
Proof.
  unfold created. destruct c; try set_solver.
  destruct (add_job_creates w jobid sched_id); [|set_solver].
  intros ->%list_elem_of_singleton. done.
Qed.

(** Along a run the numbers given to new instances are the successive
    values of the counter. *)
Lemma history_bounds (calls : list call) (w : Workflow) :
  _job_submit_seq w <= _job_submit_seq (run w calls)
  /\ Forall (fun e => _job_submit_seq w <= snd e < _job_submit_seq (run w calls))
            (history w calls)
  /\ StronglySorted Z.lt (map snd (history w calls)).
Proof.
  revert w. induction calls as [|c calls IH]; intros w; simpl.
  - split; [lia|]. split; constructor.
  - destruct (IH (apply_call w c)) as (Hle & Hall & Hsorted).
    destruct (apply_call_index w c) as (Hseq & _ & _).
    split; [lia|]. split.
    + apply Forall_app. split.
      * apply Forall_forall. intros e He.
        destruct (created_seq w c e He) as [-> Hc]. rewrite Hc in Hseq.
        simpl in Hseq. lia.
      * eapply Forall_impl; [exact Hall|]. simpl. intros e He. lia.
    + rewrite map_app. destruct (created w c) as [|e l] eqn:Hc; [done|].
      destruct (created_seq w c e) as [He Hl]; [rewrite Hc; set_solver|].
      rewrite Hc in Hl. injection Hl as ->. simpl. constructor; [done|].
      apply Forall_forall. intros x [e' [-> Hin]]%list_elem_of_fmap.
      rewrite Forall_forall in Hall. specialize (Hall e' Hin).
      simpl in Hseq, Hall. lia.
Qed.

Lemma index_ok_spec (w : Workflow) :
  index_ok w = true
  <-> forall k, is_Some (_jobs w !! k) -> snd k < _job_submit_seq w.
Proof.
  unfold index_ok. rewrite forallb_forall. split.
  - intros H k [j Hj]. apply Z.ltb_lt.
    apply (H (k, j)). by apply list_elem_of_In, elem_of_map_to_list.
  - intros H [k j] Hin%list_elem_of_In%elem_of_map_to_list. apply Z.ltb_lt.
    apply H. eauto.
Qed.

Lemma apply_call_index_ok (w : Workflow) (c : call) :
  index_ok w = true -> index_ok (apply_call w c) = true.
Proof.
  rewrite !index_ok_spec. intros H k Hk.
  destruct (apply_call_index w c) as (Hseq & _ & Hd).
  destruct (Hd k Hk) as [Hold|Hnew].
  - specialize (H k Hold). lia.
  - destruct (created_seq w c k Hnew) as [-> Hc]. rewrite Hc in Hseq.
    simpl in Hseq. lia.
Qed.

Lemma run_index_ok (calls : list call) (w : Workflow) :
  index_ok w = true -> index_ok (run w calls) = true.
Proof.
  revert w. induction calls as [|c calls IH]; intros w H; simpl; [done|].
  by apply IH, apply_call_index_ok.
Qed.



End Runs.

(** ** The map of names and the latest instance *)

Section LatestInstance.





End LatestInstance.

(** ** Signals with a scheduler id, signals for unknown job names *)

Section Signals.

(** C2, as the code has it.  A signal with a scheduler id, for a job name
    whose live instance is in a state other than PRE_SCRIPT_SUCCESS and
    DAGMAN_SUBMIT and has another scheduler id (or none), is not applied
    to that instance: [find_job_submit_seq] answers None, [add_job] creates
    an instance under the current value of the counter, and the existing
    instance is left as it was. *)
Theorem sched_id_mismatch_creates_fresh_instance
    (w : Workflow) (jobid st sid : string) (s : Z) (my_job : Job.t) :
  _jobs_map w !! jobid = Some s ->
  _jobs w !! (jobid, s) = Some my_job ->
  state_is my_job "PRE_SCRIPT_SUCCESS" = false ->
  state_is my_job "DAGMAN_SUBMIT" = false ->
  bool_decide (Job._sched_id my_job = Some sid) = false ->
  index_ok w = true ->
  fst (find_job_submit_seq w jobid (Some sid)) = None
  /\ fst (add_job w jobid st (Some sid)) = Some (_job_submit_seq w)
  /\ s < _job_submit_seq w
  /\ _jobs (snd (add_job w jobid st (Some sid))) !! (jobid, s) = Some my_job
  /\ exists j',
       _jobs (snd (add_job w jobid st (Some sid))) !! (jobid, _job_submit_seq w) = Some j'
       /\ Job._job_submit_seq j' = _job_submit_seq w
       /\ Job._job_state j' = Some st
       /\ Job._sched_id j' = Some sid.
Proof.
  intros Hm Hj H1 H2 H3 Hok.
  assert (Hf : fst (find_job_submit_seq w jobid (Some sid)) = None).
  { unfold find_job_submit_seq, find_jobid. by rewrite Hm, Hj, H1, H2, H3. }
  assert (Hlt : s < _job_submit_seq w).
  { apply index_ok_spec with (k := (jobid, s)) in Hok; eauto. }
  assert (Hc : add_job_creates w jobid (Some sid) = true).
  { unfold add_job_creates. rewrite Hf. apply bool_decide_eq_true.
    destruct (_jobs w !! (jobid, _job_submit_seq w)) eqn:E; [|done].
    apply index_ok_spec with (k := (jobid, _job_submit_seq w)) in Hok; eauto.
    simpl in Hok. lia. }
  destruct (add_job_created w jobid st (Some sid) Hc)
    as (Hr & _ & _ & j' & Hjobs & _ & Hs & Hst & Hsid).
  split; [done|]. split; [done|]. split; [done|]. rewrite Hjobs. split.
  - rewrite lookup_insert_ne; [done|]. intros [= ?]. lia.
  - exists j'. by rewrite lookup_insert_eq.
Qed.

(** C6, as the code has it.  [add_job] does not consult the static info:
    for a job name without static info it creates the Job Instance like
    for any other name, and its result is the same whatever the static
    info holds.  What gives up for such a name is the sub-workflow
    resolver, which returns None without failing. *)
Theorem add_job_does_not_consult_static_info
    (w : Workflow) (jobid st : string) (sched_id : option string)
    (info : gmap string JobInfo) (fs : FS) (wf_retries : option (gmap string Z)) :
  _job_info w !! jobid = None ->
  add_job_creates w jobid sched_id = true ->
  fst (add_job w jobid st sched_id) = Some (_job_submit_seq w)
  /\ is_Some (_jobs (snd (add_job w jobid st sched_id)) !! (jobid, _job_submit_seq w))
  /\ add_job (set_job_info info w) jobid st sched_id
     = (fst (add_job w jobid st sched_id),
        set_job_info info (snd (add_job w jobid st sched_id)))
  /\ has_subworkflow w fs jobid wf_retries = (Returns None, wf_retries, w).
Proof.
  intros Hi Hc.
  destruct (add_job_created w jobid st sched_id Hc) as (Hr & _ & _ & j' & Hjobs & _).
  split; [done|]. split; [rewrite Hjobs, lookup_insert_eq; eauto|]. split.
  - clear. unfold add_job.
    assert (Hf : find_job_submit_seq (set_job_info info w) jobid sched_id
                 = (fst (find_job_submit_seq w jobid sched_id),
                    set_job_info info (snd (find_job_submit_seq w jobid sched_id)))).
    { unfold find_job_submit_seq, find_jobid. simpl. repeat case_match; done. }
    rewrite Hf. destruct (find_job_submit_seq w jobid sched_id) as [found w1].
    unfold add_job_counter. simpl. repeat case_match; done.
  - unfold has_subworkflow, subworkflow_dagman_out. by rewrite Hi.
Qed.

End Signals.

(** ** Captured output in the main-phase end event *)

Section OutputText.







End OutputText.

(** ** The sub-workflow resolver *)

Section SubWorkflow.

Lemma fmt_03d_three_digits (n : Z) :
  0 <= n < 1000 -> String.length (PyStr.fmt_03d n) = 3%nat.
Proof.
  intros Hn.
  assert (H : forallb (fun k => Nat.eqb (String.length (PyStr.fmt_03d (Z.of_nat k))) 3)
                      (seq 0 1000) = true) by (by vm_compute).
  rewrite forallb_forall in H. specialize (H (Z.to_nat n)).
  rewrite Z2Nat.id in H by lia. apply Nat.eqb_eq, H, in_seq. lia.
Qed.

Lemma subworkflow_dagman_out_log (w : Workflow) (jobid p : string) (w1 : Workflow) :
  subworkflow_dagman_out w jobid = (Returns (Some p), w1) -> w1 = w.
Proof.
  unfold subworkflow_dagman_out.
  repeat (case_match; simplify_eq; try done); by intros [= <- <-].
Qed.

(** One encounter of a sub-workflow whose nested log is [p]. *)
Lemma has_subworkflow_encounter
    (w : Workflow) (fs : FS) (jobid p : string) (retries : gmap string Z) :
  fst (subworkflow_dagman_out w jobid) = Returns (Some p) ->
  let base := PosixPath.dirname p in
  let n := match retries !! base with Some r => r + 1 | None => 0 end in
  let numbered := base ++ "." ++ PyStr.fmt_03d n in
  fst (fst (has_subworkflow w fs jobid (Some retries)))
  = Returns (if isdir fs numbered
             then Some (PosixPath.join numbered (PosixPath.basename p))
             else if isdir fs (base ++ ".000")
                  then Some (PosixPath.join (base ++ ".000") (PosixPath.basename p))
                  else None)
  /\ snd (fst (has_subworkflow w fs jobid (Some retries))) = Some (<[base := n]> retries)
  /\ (isdir fs numbered = false -> isdir fs (base ++ ".000") = false ->
      Log WARNING
        "sub-workflow directory %s does not exist! Skipping this sub-workflow..."
        [base ++ ".000"]
      ∈ log (snd (has_subworkflow w fs jobid (Some retries)))).
Proof.
  intros Hp base n numbered. unfold has_subworkflow.
  destruct (subworkflow_dagman_out w jobid) as [[[q|]|e] w1]; simpl in Hp;
    simplify_eq.
  unfold subworkflow_retry_dir. fold base. fold n. fold numbered.
  destruct (isdir fs numbered); [done|].
  destruct (isdir fs (base ++ ".000")); [done|].
  simpl. repeat split; try done. intros _ _. set_solver.
Qed.

Lemma resolve_again_fold
    (w : Workflow) (jobid p : string) (later : list FS) (r : gmap string Z) (n : Z) :
  fst (subworkflow_dagman_out w jobid) = Returns (Some p) ->
  r !! PosixPath.dirname p = Some n ->
  exists r', fold_left (resolve_again w jobid) later (Some r) = Some r'
             /\ r' !! PosixPath.dirname p = Some (n + Z.of_nat (length later)).
Proof.
  intros Hp. revert r n. induction later as [|fs' later IH]; intros r n Hr; simpl.
  - exists r. split; [done|]. rewrite Hr. f_equal. lia.
  - unfold resolve_again at 2.
    destruct (has_subworkflow_encounter w fs' jobid p r Hp) as (_ & -> & _).
    rewrite Hr.
    destruct (IH (<[PosixPath.dirname p := n + 1]> r) (n + 1)) as [r' [Hf Hl]];
      [apply lookup_insert_eq|].
    exists r'. split; [done|]. rewrite Hl. f_equal. lia.
Qed.

(** C8.  With a retry dictionary at hand, an encounter of the sub-workflow
    whose nested log is [p], in directory [base]: the counter of [base] is
    set to 0 at the first encounter and to one more at each later one; the
    answer is the log inside [base.<counter as %03d>] (three digits below
    1000); when that directory does not exist the answer is the log inside
    [base.000]; and when that does not exist either the answer is None,
    with a warning and without an exception.  After [k+1] encounters the
    counter is [k]. *)
Theorem has_subworkflow_retry_directory
    (w : Workflow) (fs : FS) (jobid p : string) (retries : gmap string Z)
    (later : list FS) :
  fst (subworkflow_dagman_out w jobid) = Returns (Some p) ->
  let base := PosixPath.dirname p in
  let n := match retries !! base with Some r => r + 1 | None => 0 end in
  let numbered := base ++ "." ++ PyStr.fmt_03d n in
  fst (fst (has_subworkflow w fs jobid (Some retries)))
  = Returns (if isdir fs numbered
             then Some (PosixPath.join numbered (PosixPath.basename p))
             else if isdir fs (base ++ ".000")
                  then Some (PosixPath.join (base ++ ".000") (PosixPath.basename p))
                  else None)
  /\ snd (fst (has_subworkflow w fs jobid (Some retries))) = Some (<[base := n]> retries)
  /\ (isdir fs numbered = false -> isdir fs (base ++ ".000") = false ->
      Log WARNING
        "sub-workflow directory %s does not exist! Skipping this sub-workflow..."
        [base ++ ".000"]
      ∈ log (snd (has_subworkflow w fs jobid (Some retries))))
  /\ (0 <= n < 1000 -> String.length (PyStr.fmt_03d n) = 3%nat)
  /\ (exists r, fold_left (resolve_again w jobid) (fs :: later) (Some retries) = Some r
                /\ r !! base = Some (n + Z.of_nat (length later))).
Proof.
  intros Hp base n numbered.
  destruct (has_subworkflow_encounter w fs jobid p retries Hp) as (H1 & H2 & H3).
  split; [done|]. split; [done|]. split; [done|].
  split; [apply fmt_03d_three_digits|].
  simpl. unfold resolve_again at 2. rewrite H2.
  apply (resolve_again_fold w jobid p later _ _ Hp), lookup_insert_eq.
Qed.

End SubWorkflow.

(** ** The checkpoint and the submit-sequence counter *)

Section Checkpoint.

Lemma split_once_first_word (k rest : string) :
  exists r, PyStr.split_once " " (k ++ " " ++ rest) = Some (first_word k, r).
Proof.
  induction k as [|c k [r IH]]; simpl; [by eexists|].
  destruct (Ascii.eqb c " "); [by eexists|]. rewrite IH. by eexists.
Qed.

(** A line whose key is not read as the sequence key leaves the counter. *)
Lemma read_state_line_keeps_seq (w w' : Workflow) (kv : string * Z) :
  not_sequence_key (fst kv) = true ->
  read_state_line w (state_line kv) = Some w' ->
  _job_submit_seq w' = _job_submit_seq w.
Proof.
  unfold not_sequence_key, state_line, read_state_line.
  intros Hk%negb_true_iff%bool_decide_eq_false.
  destruct (split_once_first_word (fst kv) (PyStr.str_of_Z (snd kv) ++ NL)) as [r ->].
  destruct (PyStr.py_int (PyStr.strip r)); [|done].
  rewrite bool_decide_eq_false_2 by done.
  split_cases; intros; simplify_eq; done.
Qed.

Lemma read_state_lines_keep_seq (kvs : list (string * Z)) (w : Workflow) (my_fn : string) :
  Forall (fun kv => not_sequence_key (fst kv) = true) kvs ->
  _job_submit_seq (read_state_lines w my_fn (map state_line kvs)) = _job_submit_seq w.
Proof.
  revert w. induction kvs as [|kv kvs IH]; intros w Hall; simpl; [done|].
  apply Forall_cons in Hall as [Hk Hall].
  destruct (read_state_line w (state_line kv)) as [w'|] eqn:E; [|done].
  rewrite IH by done. by apply (read_state_line_keeps_seq w w' kv).
Qed.

Lemma state_file_lines_shape (w : Workflow) :
  state_file_lines w
  = ("monitord_job_sequence " ++ PyStr.str_of_Z (_job_submit_seq w) ++ NL)
    :: map state_line
         (("monitord_dagman_out_sequence",
           if _last_processed_line w <? _line w then _line w
           else _last_processed_line w)
          :: ("monitord_workflow_restart_count", _restart_count w)
          :: map_to_list (_job_counters w)).
Proof. reflexivity. Qed.

Lemma read_sequence_line (w : Workflow) (n : Z) :
  read_state_line w ("monitord_job_sequence " ++ PyStr.str_of_Z n ++ NL)
  = Some (set_job_submit_seq n w).
Proof.
  unfold read_state_line.
  change (PyStr.split_once " " ("monitord_job_sequence " ++ PyStr.str_of_Z n ++ NL))
    with (Some ("monitord_job_sequence", PyStr.str_of_Z n ++ NL)).
  cbv beta iota.
  rewrite strip_app_NL by apply str_of_Z_no_space.
  rewrite py_int_str_of_Z. reflexivity.
Qed.

(** Reading back the checkpoint restores the counter, provided no job that
    has a resubmission counter is named like the sequence key. *)
Lemma checkpoint_restores_counter (w w0 : Workflow) (fs : FS) :
  wf_file w0 MONITORD_STATE_FILE = wf_file w MONITORD_STATE_FILE ->
  wf_file w MONITORD_STATE_FILE ∉ fs_denied fs ->
  (forall k v, _job_counters w !! k = Some v -> not_sequence_key k = true) ->
  _job_submit_seq (read_workflow_state w0 (snd (write_workflow_state w fs)))
  = _job_submit_seq w.
Proof.
  intros Hpath Hok Hnames. unfold write_workflow_state, read_workflow_state.
  rewrite bool_decide_eq_false_2 by done. simpl.
  rewrite Hpath, lookup_insert_eq, state_file_lines_shape.
  cbn [read_state_lines]. rewrite read_sequence_line.
  rewrite read_state_lines_keep_seq; [done|].
  repeat (apply Forall_cons; split; [done|]).
  apply Forall_forall. intros [k v] Hin%elem_of_map_to_list. by apply (Hnames k v).
Qed.

Lemma init_recover_seq (w : Workflow) (fs : FS) :
  _replay_mode w = false ->
  _job_submit_seq (init_recover w fs) = _job_submit_seq (read_workflow_state w fs).
Proof.
  intros Hr. unfold init_recover, read_workflow_progress. rewrite Hr.
  split_cases.
Qed.

(** The counter along one run and across a clean restart: the numbers of
    the instances created in a run are the successive values of the
    counter, hence strictly increasing; and when the checkpoint written
    at the end of the run is read back by the next daemon, under the
    proviso on job names above, the numbers of the next run continue
    above all of them. *)
Lemma restart_numbers_increase
    (w w0 : Workflow) (fs : FS) (calls1 calls2 : list call) :
  let w1 := run w calls1 in
  let w2 := init_recover w0 (snd (write_workflow_state w1 fs)) in
  _replay_mode w0 = false ->
  wf_file w0 MONITORD_STATE_FILE = wf_file w1 MONITORD_STATE_FILE ->
  wf_file w1 MONITORD_STATE_FILE ∉ fs_denied fs ->
  (forall k v, _job_counters w1 !! k = Some v -> not_sequence_key k = true) ->
  _job_submit_seq w2 = _job_submit_seq w1
  /\ StronglySorted Z.lt (map snd (history w calls1 ++ history w2 calls2)).
Proof.
  intros w1 w2 Hr Hpath Hok Hnames.
  assert (Hseq : _job_submit_seq w2 = _job_submit_seq w1).
  { subst w2. rewrite init_recover_seq by done. by apply checkpoint_restores_counter. }
  split; [done|].
  destruct (history_bounds calls1 w) as (_ & H1 & S1).
  destruct (history_bounds calls2 w2) as (_ & H2 & S2).
  rewrite map_app. fold w1 in H1. rewrite Hseq in H2.
  revert S1 H1. generalize (history w calls1). intros h.
  induction h as [|e h IH]; simpl; [done|].
  intros [Sh He]%StronglySorted_inv [Hb Hh]%Forall_cons.
  constructor; [by apply IH|]. apply Forall_app. split; [done|].
  apply Forall_forall. intros x [e' [-> Hin]]%list_elem_of_fmap.
  rewrite Forall_forall in H2. specialize (H2 e' Hin). simpl in *. lia.
Qed.

(** C1, at the failing input.  A workflow with a job named
    [monitord_job_sequence]: the first run gives the numbers 1 and 2 and
    leaves the counter at 3; the checkpoint holds the line
    [monitord_job_sequence 3] and further down the job's resubmission
    counter as the line [monitord_job_sequence 0]; the restarted daemon
    reads the counter back as 0, and the next two instances get the
    numbers 0 and 1: below the numbers given before the restart, and 1 for
    the second time. *)
Theorem checkpoint_job_name_resets_counter :
  history sample_wf reserved_name_run = [("monitord_job_sequence", 1); ("B", 2)]
  /\ _job_submit_seq (run sample_wf reserved_name_run) = 3
  /\ (exists lines,
        fs_files reserved_name_checkpoint !! "/run/monitord.info" = Some lines
        /\ nth 0 lines "" = "monitord_job_sequence 3" ++ NL
        /\ ("monitord_job_sequence 0" ++ NL) ∈ drop 3 lines)
  /\ _job_submit_seq reserved_name_restart = 0
  /\ history reserved_name_restart
       [AddJob "C" "SUBMIT" (Some "3.0"); AddJob "D" "SUBMIT" (Some "4.0")]
     = [("C", 0); ("D", 1)].
Proof.
  split; [by vm_compute|]. split; [by vm_compute|]. split.
  - eexists. split; [by vm_compute|]. split; [by vm_compute|].
    vm_compute. apply list_elem_of_In. simpl. tauto.
  - split; by vm_compute.
Qed.

(** The same loss without any special job name: after a clean end and a
    crash of the next daemon, the third daemon scans the log again from
    line 0 with the counter of the old checkpoint, and the first instance
    it creates gets the number the crashed daemon gave to [C]. *)
Example stale_checkpoint_reuses_number :
  _job_submit_seq second_daemon = 3
  /\ _last_processed_line second_daemon = 10
  /\ history second_daemon [AddJob "C" "SUBMIT" (Some "3.0")] = [("C", 3)]
  /\ _job_submit_seq third_daemon = 3
  /\ _last_processed_line third_daemon = 0
  /\ history third_daemon [AddJob "A" "SUBMIT" (Some "1.0")] = [("A", 3)].
Proof. repeat split; by vm_compute. Qed.

End Checkpoint.

(** ** Numbers and instances along a run *)

Section Numbering.

Lemma names_live_spec (w : Workflow) :
  names_live w = true
  <-> forall j s, _jobs_map w !! j = Some s -> is_Some (_jobs w !! (j, s)).
Proof.
  unfold names_live. rewrite forallb_forall. split.
  - intros H j s Hj. eapply bool_decide_eq_true_1.
    apply (H (j, s)). by apply list_elem_of_In, elem_of_map_to_list.
  - intros H [j s] Hin%list_elem_of_In%elem_of_map_to_list.
    apply bool_decide_eq_true_2. by apply H.
Qed.


(** What [add_job] does to an object whose live instances are all below
    the counter. *)
Lemma add_job_result (w : Workflow) (jobid st : string) (sched_id : option string) :
  index_ok w = true ->
  exists s j,
    fst (add_job w jobid st sched_id) = Some s
    /\ _jobs (snd (add_job w jobid st sched_id)) !! (jobid, s) = Some j
    /\ _jobs_map (snd (add_job w jobid st sched_id)) !! jobid = Some s
    /\ Job._job_state j = Some st
    /\ Job._job_state_timestamp j = Some (_current_timestamp w)
    /\ (forall sid, sched_id = Some sid -> Job._sched_id j = Some sid)
    /\ _job_counters (snd (add_job w jobid st sched_id))
       = (if bool_decide (st = "SUBMIT")
          then <[jobid := match _job_counters w !! jobid with
                          | Some n => n + 1
                          | None => 0
                          end]> (_job_counters w)
          else _job_counters w)
    /\ (st = "SUBMIT" ->
        _job_counters (snd (add_job w jobid st sched_id)) !! jobid
        = Some (Job._job_output_counter j)).
Proof.
  intros Hok. rewrite index_ok_spec in Hok. unfold add_job.
  pose proof (find_job_submit_seq_Some w jobid sched_id) as HS.
  destruct (find_job_submit_seq_log w jobid sched_id) as [l Hl].
  destruct (find_job_submit_seq w jobid sched_id) as [found w1]. simpl in *. subst w1.
  destruct found as [s|]; simpl.
  - destruct (HS s eq_refl) as [Hm [j Hj]]. rewrite Hj. simpl.
    unfold add_job_counter. case_bool_decide; simpl.
    + eexists s, _. split; [done|]. rewrite lookup_alter_eq, lookup_insert_eq. simpl.
      split; [done|]. split; [done|]. rewrite lookup_insert_eq.
      destruct sched_id; simpl; repeat split; try done; by intros ? [= ->].
    + eexists s, _. split; [done|]. rewrite lookup_insert_eq.
      split; [done|]. split; [done|].
      destruct sched_id; simpl; repeat split; try done; by intros ? [= ->].
  - destruct (_jobs w !! (jobid, _job_submit_seq w)) as [j|] eqn:Hj.
    { exfalso. specialize (Hok (jobid, _job_submit_seq w)). simpl in Hok.
      rewrite Hj in Hok. specialize (Hok (mk_is_Some _ _ eq_refl)). lia. }
    simpl. unfold add_job_counter. case_bool_decide; simpl.
    + eexists _, _. split; [done|]. rewrite lookup_alter_eq, !lookup_insert_eq. simpl.
      repeat split; done.
    + eexists _, _. split; [done|]. rewrite !lookup_insert_eq. repeat split; done.
Qed.

(** X2.  On an object whose live Job Instances all have numbers below the
    counter, [add_job] always returns a submit-sequence number (it takes
    neither of the two branches that return nothing): the instance of that
    number is live, the job name is mapped to it, it carries the state of
    the signal with the current timestamp, and the scheduler id of the
    signal when one is given.  The number is below the counter afterwards,
    so the same holds for the next call. *)
Theorem add_job_returns_a_live_instance
    (w : Workflow) (jobid st : string) (sched_id : option string) :
  index_ok w = true ->
  exists s j,
    fst (add_job w jobid st sched_id) = Some s
    /\ _jobs (snd (add_job w jobid st sched_id)) !! (jobid, s) = Some j
    /\ find_jobid (snd (add_job w jobid st sched_id)) jobid = Some s
    /\ Job._job_state j = Some st
    /\ Job._job_state_timestamp j = Some (_current_timestamp w)
    /\ (forall sid, sched_id = Some sid -> Job._sched_id j = Some sid)
    /\ s < _job_submit_seq (snd (add_job w jobid st sched_id))
    /\ index_ok (snd (add_job w jobid st sched_id)) = true.
Proof.
  intros Hok.
  destruct (add_job_result w jobid st sched_id Hok)
    as (s & j & Hr & Hj & Hm & Hst & Hts & Hsid & _).
  pose proof (apply_call_index_ok w (AddJob jobid st sched_id) Hok) as Hok'.
  simpl in Hok'. exists s, j. repeat split; try done.
  rewrite index_ok_spec in Hok'. apply (Hok' (jobid, s)). by rewrite Hj.
Qed.

Lemma apply_call_names_live (w : Workflow) (c : call) :
  names_live w = true -> names_live (apply_call w c) = true.
Proof.
  rewrite !names_live_spec. intros H. destruct c; simpl.
  - destruct (add_job_creates w jobid sched_id) eqn:E.
    + destruct (add_job_created w jobid job_state sched_id E)
        as (_ & _ & -> & j' & -> & _).
      intros j s. destruct (decide (j = jobid)) as [->|Hne].
      * rewrite lookup_insert_eq. intros [= <-]. by rewrite lookup_insert_eq.
      * rewrite lookup_insert_ne by done. intros Hj.
        rewrite lookup_insert_ne by congruence. by apply H.
    + destruct (add_job_not_created w jobid job_state sched_id E)
        as (_ & -> & Hd & _).
      intros j s Hj. by apply Hd, H.
  - unfold job_update_info.
    destruct (_jobs w !! (jobid, job_submit_seq)) as [my_job|] eqn:Hj; simpl; [|done].
    intros j s Hm. destruct (decide ((j, s) = (jobid, job_submit_seq))) as [->|].
    + by rewrite lookup_insert_eq.
    + rewrite lookup_insert_ne by done. by apply H.
  - intros j s. rewrite start_wf_jobs. unfold start_wf.
    match goal with |- context [fold_left delete_job ?ks ?x] =>
      destruct (fold_delete_job_names ks x j) as (-> & _) end.
    simpl. case_decide as Hin; [done|]. intros Hm.
    destruct (H j s Hm) as [my_job Hj]. rewrite Hj. simpl.
    destruct (job_done w j my_job) eqn:Hd; [|done].
    exfalso. apply Hin, list_elem_of_fmap. exists (j, s). split; [done|].
    apply elem_of_jobs_to_delete. eauto.
  - by destruct (change_wf_state_index w state) as (-> & -> & _).
  - by destruct (output_to_db_index w event kw) as (-> & -> & _).
  - by destruct (db_send_wf_state_index w state) as (-> & -> & _).
  - destruct (db_send_job_end_at_index w jobid job_submit_seq status) as (Hd & -> & _).
    intros j s Hm. by apply Hd, H.
Qed.

Lemma run_names_live (calls : list call) (w : Workflow) :
  names_live w = true -> names_live (run w calls) = true.
Proof.
  revert w. induction calls as [|c calls IH]; intros w H; simpl; [done|].
  by apply IH, apply_call_names_live.
Qed.

(** X3.  When every job name in [_jobs_map] is mapped to a live Job
    Instance (as on a new object, where the map is empty), the same holds
    after any run: the instance a name is mapped to is in [_jobs], so
    [update_job_state] called without a number finds it, and
    [find_job_submit_seq] never takes its "cannot find job" branch, it
    leaves the object as it is. *)
Theorem jobs_map_entries_stay_live
    (w : Workflow) (calls : list call) (jobid : string) (s : Z)
    (sched_id : option string) :
  names_live w = true ->
  _jobs_map (run w calls) !! jobid = Some s ->
  is_Some (_jobs (run w calls) !! (jobid, s))
  /\ update_job_state_find (run w calls) jobid None = Some (jobid, s)
  /\ snd (find_job_submit_seq (run w calls) jobid sched_id) = run w calls.
Proof.
  intros Hlive Hm. pose proof (run_names_live calls w Hlive) as Hl.
  rewrite names_live_spec in Hl. destruct (Hl jobid s Hm) as [j Hj].
  split; [eauto|]. split.
  - unfold update_job_state_find. by rewrite Hm, Hj.
  - unfold find_job_submit_seq, find_jobid. rewrite Hm, Hj. split_cases.
Qed.

Lemma counter_after_S (n : nat) (c : option Z) :
  counter_after (S n) c
  = counter_after n (Some (match c with Some x => x + 1 | None => 0 end)).
Proof.
  destruct n, c; simpl; f_equal; lia.
Qed.

Lemma output_to_db_counters (w : Workflow) (event : string) (kw : kwargs) :
  _job_counters (output_to_db w event kw) = _job_counters w
  /\ _restart_count (output_to_db w event kw) = _restart_count w.
Proof. unfold output_to_db. split_cases. Qed.

Lemma db_send_wf_state_counters (w : Workflow) (state : option string) :
  _job_counters (db_send_wf_state w state) = _job_counters w
  /\ _restart_count (db_send_wf_state w state) = _restart_count w.
Proof.
  unfold db_send_wf_state. destruct (_sink w), state; try done.
  repeat case_match; simplify_eq;
    match goal with |- context [output_to_db ?x ?e ?k] =>
      destruct (output_to_db_counters x e k) as (-> & ->) end; done.
Qed.

Lemma change_wf_state_counters (w : Workflow) (state : string) :
  _job_counters (change_wf_state w state) = _job_counters w.
Proof.
  unfold change_wf_state.
  match goal with |- context [check_notifications ?x] => set (w1 := x) end.
  assert (H1 : _job_counters w1 = _job_counters w) by (subst w1; split_cases).
  rewrite <- H1.
  destruct (check_notifications w1) as [notify w2] eqn:Hc.
  assert (H2 : _job_counters w2 = _job_counters w1).
  { revert Hc. unfold check_notifications. split_cases; intros; simplify_eq; done. }
  rewrite <- H2.
  match goal with |- context [db_send_wf_state ?x ?st] =>
    destruct (db_send_wf_state_counters x st) as (-> & _) end.
  split_cases.
Qed.

Lemma db_send_job_end_at_counters (w : Workflow) (jobid : string) (s : Z)
    (status : option Z) :
  _job_counters (db_send_job_end_at w jobid s status) = _job_counters w
  /\ _restart_count (db_send_job_end_at w jobid s status) = _restart_count w.
Proof.
  unfold db_send_job_end_at, db_send_job_end.
  destruct (_jobs w !! (jobid, s)) as [my_job|]; [|done].
  destruct (_sink w); [|done].
  assert (H1 : _job_counters (snd (job_end_event w my_job status)) = _job_counters w
               /\ _restart_count (snd (job_end_event w my_job status))
                  = _restart_count w).
  { unfold job_end_event, job_end_texts.
    destruct (_store_stdout_stderr w); [|done].
    destruct (Job._stdout_text my_job) as [t1|], (Job._stderr_text my_job) as [t2|];
      repeat match goal with
             | |- context [output_text ?t] => destruct (output_text t) as [? []]
             end; done. }
  destruct (job_end_event w my_job status) as [kw w1]. simpl in *.
  by destruct (output_to_db_counters w1 "job_inst.main.end" kw) as (-> & ->).
Qed.

(** Only [add_job] writes the resubmission counters. *)
Lemma apply_call_counters (w : Workflow) (c : call) :
  match c with
  | AddJob _ _ _ => True
  | _ => _job_counters (apply_call w c) = _job_counters w
  end.
Proof.
  destruct c; simpl; try done.
  - unfold job_update_info. split_cases.
  - unfold start_wf.
    match goal with |- context [fold_left delete_job ?ks ?x] =>
      by destruct (fold_delete_job_counters ks x) as (_ & _ & ->) end.
  - apply change_wf_state_counters.
  - apply output_to_db_counters.
  - apply db_send_wf_state_counters.
  - apply db_send_job_end_at_counters.
Qed.

Lemma add_job_restart_count (w : Workflow) (jobid st : string) (sched_id : option string) :
  _restart_count (snd (add_job w jobid st sched_id)) = _restart_count w.
Proof.
  unfold add_job.
  destruct (find_job_submit_seq_log w jobid sched_id) as [l Hl].
  destruct (find_job_submit_seq w jobid sched_id) as [found w1]. simpl in *. subst w1.
  unfold add_job_counter. split_cases.
Qed.

Lemma change_wf_state_restart_count (w : Workflow) (state : string) :
  _restart_count (change_wf_state w state)
  = _restart_count w + (if bool_decide (state = "start") then 1 else 0).
Proof.
  unfold change_wf_state.
  match goal with |- context [check_notifications ?x] => set (w1 := x) end.
  assert (H1 : _restart_count w1
               = _restart_count w + (if bool_decide (state = "start") then 1 else 0)).
  { subst w1. repeat case_bool_decide; simpl; lia. }
  rewrite <- H1.
  destruct (check_notifications w1) as [notify w2] eqn:Hc.
  assert (H2 : _restart_count w2 = _restart_count w1).
  { revert Hc. unfold check_notifications. split_cases; intros; simplify_eq; done. }
  rewrite <- H2.
  match goal with |- context [db_send_wf_state ?x ?s] =>
    destruct (db_send_wf_state_counters x s) as (_ & ->) end.
  split_cases.
Qed.

Lemma apply_call_restart_count (w : Workflow) (c : call) :
  _restart_count (apply_call w c)
  = _restart_count w + (if is_start c then 1 else 0).
Proof.
  destruct c; simpl; rewrite ?Z.add_0_r.
  - apply add_job_restart_count.
  - unfold job_update_info. split_cases.
  - unfold start_wf.
    match goal with |- context [fold_left delete_job ?ks ?x] =>
      by destruct (fold_delete_job_counters ks x) as (_ & -> & _) end.
  - apply change_wf_state_restart_count.
  - apply output_to_db_counters.
  - apply db_send_wf_state_counters.
  - apply db_send_job_end_at_counters.
Qed.

(** X8.  The restart counter counts the controller starts: along any run
    it grows by one at each [change_wf_state("start")] and no other call
    changes it, [start_wf] included. *)
Theorem restart_count_counts_controller_starts (w : Workflow) (calls : list call) :
  _restart_count (run w calls) = _restart_count w + Z.of_nat (starts calls).
Proof.
  revert w. induction calls as [|c calls IH]; intros w.
  - simpl. unfold starts. simpl. lia.
  - cbn [run fold_left]. fold (run (apply_call w c) calls).
    rewrite IH, apply_call_restart_count. unfold starts. cbn [List.filter].
    destruct (is_start c); simpl length; lia.
Qed.

Lemma run_counters (calls : list call) (w : Workflow) (jobid : string) :
  index_ok w = true ->
  _job_counters (run w calls) !! jobid
  = counter_after (submits jobid calls) (_job_counters w !! jobid).
Proof.
  revert w. induction calls as [|c calls IH]; intros w Hok; [done|].
  cbn [run fold_left]. fold (run (apply_call w c) calls).
  rewrite IH by by apply apply_call_index_ok.
  unfold submits. cbn [List.filter].
  pose proof (apply_call_counters w c) as Hc.
  destruct c; cbn [is_submit_of]; try (by rewrite Hc).
  destruct (add_job_result w jobid0 job_state sched_id Hok)
    as (s & j & _ & _ & _ & _ & _ & _ & Hcs & _).
  cbn [apply_call]. rewrite Hcs.
  destruct (decide (jobid0 = jobid)) as [->|Hne].
  - rewrite (bool_decide_eq_true_2 (jobid = jobid)) by done. cbn [andb].
    case_bool_decide; [|done].
    cbn [length]. fold (submits jobid calls).
    by rewrite counter_after_S, lookup_insert_eq.
  - rewrite (bool_decide_eq_false_2 (jobid0 = jobid)) by done. cbn [andb].
    fold (submits jobid calls).
    case_bool_decide; [|done]. by rewrite lookup_insert_ne.
Qed.

(** X4.  The resubmission counter of a job name counts its SUBMIT signals:
    after a run with [n] of them the counter is [n - 1] for a name that had
    none, and the old value plus [n] otherwise; no other call writes it.
    The next SUBMIT for the name stores the counter's new value in the
    instance it returns, as its output counter. *)
Theorem job_counters_count_submit_signals
    (w : Workflow) (calls : list call) (jobid : string) (sched_id : option string) :
  index_ok w = true ->
  _job_counters (run w calls) !! jobid
  = counter_after (submits jobid calls) (_job_counters w !! jobid)
  /\ exists s j,
       fst (add_job (run w calls) jobid "SUBMIT" sched_id) = Some s
       /\ _jobs (snd (add_job (run w calls) jobid "SUBMIT" sched_id)) !! (jobid, s)
          = Some j
       /\ Some (Job._job_output_counter j)
          = counter_after (S (submits jobid calls)) (_job_counters w !! jobid).
Proof.
  intros Hok. split; [by apply run_counters|].
  destruct (add_job_result (run w calls) jobid "SUBMIT" sched_id (run_index_ok calls w Hok))
    as (s & j & Hr & Hj & _ & _ & _ & _ & Hcs & Hout).
  exists s, j. split; [done|]. split; [done|].
  rewrite <- Hout by done. rewrite Hcs.
  rewrite bool_decide_eq_true_2 by done.
  rewrite lookup_insert_eq, run_counters by done.
  generalize (submits jobid calls) as n. intros n.
  destruct n as [|n], (_job_counters w !! jobid) as [c|]; simpl; f_equal; lia.
Qed.

End Numbering.

(** ** The checkpoint read back *)

Section CheckpointRoundTrip.

Lemma split_once_no_space (k rest : string) :
  PyStr.no_space k = true ->
  PyStr.split_once " " (k ++ String " " rest) = Some (k, rest).
Proof.
  induction k as [|c k IH]; simpl; [done|].
  intros [Hc Hk]%andb_true_iff. rewrite (IH Hk).
  destruct (Ascii.eqb_spec c " ") as [->|]; [done|done].
Qed.

(** A line written for a key without white space is read back as that key
    and that number. *)
Lemma read_state_line_written (w : Workflow) (k : string) (v : Z) :
  PyStr.no_space k = true ->
  read_state_line w (state_line (k, v))
  = Some (if bool_decide (k = "monitord_job_sequence")
          then set_job_submit_seq v w
          else if bool_decide (k = "monitord_dagman_out_sequence")
          then set_last_processed_line v w
          else if bool_decide (k = "monitord_workflow_restart_count")
          then set_restart_count v w
          else set_job_counters (<[k := v]> (_job_counters w)) w).
Proof.
  intros Hk. unfold read_state_line, state_line. cbn [fst snd].
  change (k ++ " " ++ PyStr.str_of_Z v ++ NL)
    with (k ++ String " " (PyStr.str_of_Z v ++ NL)).
  rewrite split_once_no_space by done.
  by rewrite py_int_line, strip_no_space by done.
Qed.

Lemma plain_name_spec (k : string) :
  plain_name k = true ->
  PyStr.no_space k = true
  /\ k <> "monitord_job_sequence"
  /\ k <> "monitord_dagman_out_sequence"
  /\ k <> "monitord_workflow_restart_count".
Proof.
  unfold plain_name, reserved_keys.
  intros [Hs Hr%negb_true_iff%bool_decide_eq_false]%andb_true_iff.
  split; [done|]. repeat split; intros ->; apply Hr; set_solver.
Qed.

(** Reading the lines of the resubmission counters: each one is stored. *)
Lemma read_counter_lines (kvs : list (string * Z)) (w : Workflow) (my_fn : string) :
  Forall (fun kv => plain_name (fst kv) = true) kvs ->
  read_state_lines w my_fn (map state_line kvs)
  = set_job_counters
      (fold_left (fun m kv => <[fst kv := snd kv]> m) kvs (_job_counters w)) w.
Proof.
  revert w. induction kvs as [|[k v] kvs IH]; intros w Hall.
  - by destruct w.
  - apply Forall_cons in Hall as [Hk Hall].
    destruct (plain_name_spec k Hk) as (Hs & H1 & H2 & H3).
    cbn [map read_state_lines fold_left fst snd].
    rewrite read_state_line_written by done.
    rewrite !bool_decide_eq_false_2 by done.
    by rewrite IH.
Qed.

Lemma fold_insert_union (kvs : list (string * Z)) (m : gmap string Z) :
  NoDup (map fst kvs) ->
  fold_left (fun m kv => <[fst kv := snd kv]> m) kvs m
  = (list_to_map kvs : gmap string Z) ∪ m.
Proof.
  revert m. induction kvs as [|[k v] kvs IH]; intros m Hnd.
  - simpl. by rewrite (left_id_L ∅ (∪)).
  - change (map fst ((k, v) :: kvs)) with (k :: map fst kvs) in Hnd.
    apply NoDup_cons in Hnd as [Hk Hnd]. cbn [fold_left fst snd].
    rewrite IH by done. rewrite list_to_map_cons, <- insert_union_l.
    symmetry. apply insert_union_r. by apply not_elem_of_list_to_map_1.
Qed.

Lemma counters_plain_spec (w : Workflow) :
  counters_plain w = true ->
  Forall (fun kv => plain_name (fst kv) = true) (map_to_list (_job_counters w)).
Proof.
  unfold counters_plain. rewrite forallb_forall, Forall_forall.
  intros H kv Hin. by apply H, list_elem_of_In.
Qed.

(** The object [read_workflow_state] builds from the file
    [write_workflow_state] wrote. *)
Lemma read_written_state (w w0 : Workflow) (fs : FS) :
  wf_file w0 MONITORD_STATE_FILE = wf_file w MONITORD_STATE_FILE ->
  wf_file w MONITORD_STATE_FILE ∉ fs_denied fs ->
  counters_plain w = true ->
  read_workflow_state w0 (snd (write_workflow_state w fs))
  = set_job_counters (_job_counters w ∪ _job_counters w0)
      (set_restart_count (_restart_count w)
         (set_last_processed_line (Z.max (_line w) (_last_processed_line w))
            (set_job_submit_seq (_job_submit_seq w) w0))).
Proof.
  intros Hfn Hden Hplain.
  unfold read_workflow_state, write_workflow_state.
  rewrite bool_decide_eq_false_2 by done. simpl.
  rewrite Hfn, lookup_insert_eq, state_file_lines_shape.
  cbn [read_state_lines]. rewrite read_sequence_line.
  cbn [map read_state_lines].
  rewrite !read_state_line_written by done.
  cbn [bool_decide decide_rel]. simpl bool_decide.
  rewrite read_counter_lines by by apply counters_plain_spec.
  rewrite fold_insert_union by apply NoDup_fst_map_to_list.
  rewrite list_to_map_to_list. simpl.
  replace (if _last_processed_line w <? _line w then _line w else _last_processed_line w)
    with (Z.max (_line w) (_last_processed_line w)); [done|].
  destruct (Z.ltb_spec (_last_processed_line w) (_line w)); lia.
Qed.

(** X5.  What [write_workflow_state] writes, [read_workflow_state] reads
    back: when every job name with a resubmission counter is plain (no
    white space, none of the three reserved keys), an object that reads the
    file gets the submit-sequence counter, the restart counter and every
    resubmission counter of the writer, and as last processed line the
    greater of the writer's current and last processed lines.  Counters of
    the reader for other names stay, and nothing is logged. *)
Theorem checkpoint_is_read_back (w w0 : Workflow) (fs : FS) :
  wf_file w0 MONITORD_STATE_FILE = wf_file w MONITORD_STATE_FILE ->
  wf_file w MONITORD_STATE_FILE ∉ fs_denied fs ->
  counters_plain w = true ->
  let w' := read_workflow_state w0 (snd (write_workflow_state w fs)) in
  _job_submit_seq w' = _job_submit_seq w
  /\ _last_processed_line w' = Z.max (_line w) (_last_processed_line w)
  /\ _restart_count w' = _restart_count w
  /\ _job_counters w' = _job_counters w ∪ _job_counters w0
  /\ (forall k v, _job_counters w !! k = Some v -> _job_counters w' !! k = Some v)
  /\ log w' = log w0.
Proof.
  intros Hfn Hden Hplain w'. subst w'. rewrite read_written_state by done. simpl.
  repeat split; try done.
  intros k v Hk. by apply lookup_union_Some_l.
Qed.

Lemma read_state_line_None (w w' : Workflow) (line : string) :
  read_state_line w line = None -> read_state_line w' line = None.
Proof. unfold read_state_line. split_cases. Qed.

Lemma read_state_lines_bad (pre post : list string) (bad my_fn : string) (w : Workflow) :
  Forall (fun l => is_Some (read_state_line w l)) pre ->
  read_state_line w bad = None ->
  read_state_lines w my_fn (pre ++ bad :: post)
  = logger ERROR "error processing state file %s" [my_fn] (read_state_lines w my_fn pre).
Proof.
  revert w. induction pre as [|l pre IH]; intros w Hpre Hbad.
  - simpl. by rewrite Hbad.
  - apply Forall_cons in Hpre as [[w1 Hl] Hpre].
    cbn [app read_state_lines]. rewrite Hl. apply IH.
    + eapply Forall_impl; [exact Hpre|]. simpl. intros l' [x Hx].
      destruct (read_state_line w1 l') eqn:E; [eauto|].
      by rewrite (read_state_line_None _ w _ E) in Hx.
    + by apply (read_state_line_None w).
Qed.

(** X6.  [read_workflow_state] stops at the first line it cannot read (no
    space to split at, or a count that is not a number): it logs one error,
    keeps what the lines before it stored and never looks at the lines
    after it.  The object is the one the file cut before that line would
    give, with the error record added. *)
Theorem read_workflow_state_stops_at_bad_line
    (w : Workflow) (fs : FS) (pre post : list string) (bad : string) :
  fs_files fs !! wf_file w MONITORD_STATE_FILE = Some (pre ++ bad :: post)%list ->
  forallb (fun l => bool_decide (is_Some (read_state_line w l))) pre = true ->
  read_state_line w bad = None ->
  read_workflow_state w fs
  = logger ERROR "error processing state file %s" [wf_file w MONITORD_STATE_FILE]
      (read_workflow_state w (fs_write (wf_file w MONITORD_STATE_FILE) pre fs))
  /\ (PyStr.split_once " " bad = None -> read_state_line w bad = None).
Proof.
  intros Hf Hpre Hbad. split.
  - unfold read_workflow_state. rewrite Hf. simpl. rewrite lookup_insert_eq.
    apply read_state_lines_bad; [|done].
    apply Forall_forall. intros l Hl. rewrite forallb_forall in Hpre.
    eapply bool_decide_eq_true_1, Hpre. by apply list_elem_of_In.
  - unfold read_state_line. by intros ->.
Qed.

(** X7.  A daemon that starts from the checkpoint of an earlier one, in a
    directory without recovery marker, is not in recovery mode: it has the
    counters of the checkpoint, resumes the controller log at the line
    recorded there, and with [_previous_processed_line] still 0 no
    notification is held back at any line. *)
Theorem clean_restart_resumes_from_checkpoint (w w0 : Workflow) (fs : FS) :
  _replay_mode w0 = false ->
  _previous_processed_line w0 = 0 ->
  wf_file w0 MONITORD_STATE_FILE = wf_file w MONITORD_STATE_FILE ->
  wf_file w MONITORD_STATE_FILE ∉ fs_denied fs ->
  counters_plain w = true ->
  fs_files (snd (write_workflow_state w fs)) !! wf_file w0 MONITORD_RECOVER_FILE = None ->
  let w2 := restart_from_checkpoint w w0 fs in
  _job_submit_seq w2 = _job_submit_seq w
  /\ _restart_count w2 = _restart_count w
  /\ _job_counters w2 = _job_counters w ∪ _job_counters w0
  /\ _last_processed_line w2 = Z.max (_line w) (_last_processed_line w)
  /\ _previous_processed_line w2 = 0
  /\ (forall n, 0 <= n ->
        fst (check_notifications (set_line n w2)) = _enable_notifications w0).
Proof.
  intros Hrep Hprev Hfn Hden Hplain Hmark w2. subst w2.
  unfold restart_from_checkpoint, init_recover. rewrite Hrep.
  pose proof (read_workflow_state_static w0 (snd (write_workflow_state w fs))) as Hst.
  assert (Hp : read_workflow_progress
                 (read_workflow_state w0 (snd (write_workflow_state w fs)))
                 (snd (write_workflow_state w fs))
               = read_workflow_state w0 (snd (write_workflow_state w fs))).
  { unfold read_workflow_progress. by rewrite (wf_file_static _ _ _ Hst), Hmark. }
  rewrite Hp. clear Hp Hst.
  rewrite read_written_state by done. simpl. rewrite Hprev. simpl.
  repeat split; try done.
  intros n Hn. unfold check_notifications. simpl. rewrite Hprev.
  destruct (_enable_notifications w0); simpl; [|done].
  destruct (Z.ltb_spec n 0); [lia | done].
Qed.

End CheckpointRoundTrip.

(** ** Controller starts *)

Section ControllerStart.

(** A working sink records the event and leaves the counters and the
    job-state log alone. *)
Lemma output_to_db_sent (w : Workflow) (sink : Sink) (event : string) (kw : kwargs) :
  _sink w = Some sink ->
  _database_disabled w = false ->
  sink_calls (output_to_db w event kw) = (sink_calls w ++ [(event, kw)])%list
  /\ _restart_count (output_to_db w event kw) = _restart_count w
  /\ _JSDB (output_to_db w event kw) = _JSDB w.
Proof.
  intros Hs Hd. unfold output_to_db. rewrite Hs, Hd.
  by destruct (sink _ _ _).
Qed.

(** The event [db_send_wf_state] builds for a start. *)
Lemma db_send_wf_state_start (w : Workflow) :
  db_send_wf_state w (Some "start")
  = match _sink w with
    | None => w
    | Some _ =>
        output_to_db w "xwf.start"
          (<["restart_count" := PInt (_restart_count w - 1)]>
             (<["ts" := PInt (_current_timestamp w)]>
                (<["xwf__id" := opt_str_val (_wf_uuid w)]> ∅)))
    end.
Proof. unfold db_send_wf_state. by destruct (_sink w). Qed.

(** X9.  With a working sink, [change_wf_state("start")] sends one
    [xwf.start] event whose [restart_count] is the number of starts seen
    before this one (the counter is incremented, then reported less one),
    and appends the DAGMAN_STARTED line to the job-state log. *)
Theorem start_event_reports_earlier_starts (w : Workflow) (sink : Sink) :
  _sink w = Some sink ->
  _database_disabled w = false ->
  let kw : kwargs :=
    <["restart_count" := PInt (_restart_count w)]>
      (<["ts" := PInt (_current_timestamp w)]>
         (<["xwf__id" := opt_str_val (_wf_uuid w)]> ∅)) in
  sink_calls (change_wf_state w "start") = (sink_calls w ++ [("xwf.start", kw)])%list
  /\ _restart_count (change_wf_state w "start") = _restart_count w + 1
  /\ _JSDB (change_wf_state w "start")
     = (_JSDB w ++ [(PyStr.str_of_Z (_current_timestamp w)
                     ++ " INTERNAL *** DAGMAN_STARTED "
                     ++ str_opt (_dagman_condor_id w) ++ " ***" ++ NL)%string])%list.
Proof.
  intros Hs Hd kw. subst kw.
  unfold change_wf_state. rewrite bool_decide_eq_true_2 by done.
  set (w1 := set_restart_count _ _).
  assert (H1 : _sink w1 = Some sink /\ _database_disabled w1 = false
               /\ sink_calls w1 = sink_calls w
               /\ _restart_count w1 = _restart_count w + 1
               /\ _current_timestamp w1 = _current_timestamp w
               /\ _wf_uuid w1 = _wf_uuid w
               /\ _JSDB w1 = (_JSDB w ++ [(PyStr.str_of_Z (_current_timestamp w)
                     ++ " INTERNAL *** DAGMAN_STARTED "
                     ++ str_opt (_dagman_condor_id w) ++ " ***" ++ NL)%string])%list)
    by (subst w1; repeat split; done).
  clearbody w1. destruct H1 as (Hs1 & Hd1 & Hc1 & Hr1 & Ht1 & Hu1 & Hj1).
  set (cn := check_notifications w1).
  assert (H2 : _sink (snd cn) = Some sink /\ _database_disabled (snd cn) = false
               /\ sink_calls (snd cn) = sink_calls w1
               /\ _restart_count (snd cn) = _restart_count w1
               /\ _current_timestamp (snd cn) = _current_timestamp w1
               /\ _wf_uuid (snd cn) = _wf_uuid w1
               /\ _JSDB (snd cn) = _JSDB w1).
  { subst cn. unfold check_notifications.
    destruct (_enable_notifications w1); simpl; [|done].
    destruct (_line w1 <? _previous_processed_line w1); simpl; done. }
  clearbody cn. destruct cn as [notify w2]. simpl in H2.
  destruct H2 as (Hs2 & Hd2 & Hc2 & Hr2 & Ht2 & Hu2 & Hj2).
  set (w3 := if notify && _notifications_manager w2 then _ else w2).
  assert (H3 : _sink w3 = Some sink /\ _database_disabled w3 = false
               /\ sink_calls w3 = sink_calls w2
               /\ _restart_count w3 = _restart_count w2
               /\ _current_timestamp w3 = _current_timestamp w2
               /\ _wf_uuid w3 = _wf_uuid w2
               /\ _JSDB w3 = _JSDB w2).
  { subst w3. destruct (notify && _notifications_manager w2); done. }
  clearbody w3. destruct H3 as (Hs3 & Hd3 & Hc3 & Hr3 & Ht3 & Hu3 & Hj3).
  rewrite db_send_wf_state_start, Hs3.
  destruct (output_to_db_sent w3 sink "xwf.start"
              (<["restart_count" := PInt (_restart_count w3 - 1)]>
                (<["ts" := PInt (_current_timestamp w3)]>
                  (<["xwf__id" := opt_str_val (_wf_uuid w3)]> ∅))) Hs3 Hd3)
    as (-> & -> & ->).
  rewrite Hc3, Hc2, Hc1, Hr3, Hr2, Hr1, Ht3, Ht2, Ht1, Hu3, Hu2, Hu1, Hj3, Hj2, Hj1.
  by rewrite Z.add_simpl_r.
Qed.

(** X10.  [start_wf] is idempotent on the job tables: once it has run, no
    live instance is done, so a second call deletes nothing. *)
Theorem start_wf_twice_deletes_nothing_more (w : Workflow) :
  jobs_to_delete (start_wf w) = []
  /\ _jobs (start_wf (start_wf w)) = _jobs (start_wf w)
  /\ _jobs_map (start_wf (start_wf w)) = _jobs_map (start_wf w)
  /\ _walltime (start_wf (start_wf w)) = _walltime (start_wf w)
  /\ _job_site (start_wf (start_wf w)) = _job_site (start_wf w).
Proof.
  assert (Hnone : jobs_to_delete (start_wf w) = []).
  { unfold jobs_to_delete.
    assert (Hall : forall kv, kv ∈ map_to_list (_jobs (start_wf w)) ->
               job_done (start_wf w) (fst (fst kv)) (snd kv) = false).
    { intros [k j] Hin%elem_of_map_to_list. simpl. rewrite start_wf_jobs in Hin.
      destruct (_jobs w !! k) as [j0|]; [|done].
      destruct (job_done w (fst k) j0) eqn:Hd; [done|]. injection Hin as ->.
      unfold job_done in *. unfold start_wf.
      match goal with |- context [fold_left delete_job ?ks ?x] =>
        destruct (fold_delete_job_static ks x) as (_&_&_&_&_&_&_&_&->&_) end.
      done. }
    induction (map_to_list (_jobs (start_wf w))) as [|kv l IH]; [done|].
    simpl. rewrite (Hall kv) by apply list_elem_of_here. simpl.
    apply IH. intros kv' Hin. apply Hall. by apply list_elem_of_further. }
  split; [done|].
  assert (Hs : forall w', jobs_to_delete w' = [] ->
             _jobs (start_wf w') = _jobs w' /\ _jobs_map (start_wf w') = _jobs_map w'
             /\ _walltime (start_wf w') = _walltime w'
             /\ _job_site (start_wf w') = _job_site w').
  { intros w' H. unfold start_wf. rewrite H. done. }
  exact (Hs (start_wf w) Hnone).
Qed.

End ControllerStart.

(** ** The sub-workflow resolver: errors and relocation *)

Section SubWorkflowPaths.

Lemma startswith_app (p x : string) : PyStr.startswith p (p ++ x) = true.
Proof.
  induction p as [|c p IH]; simpl; [done|]. by rewrite Ascii.eqb_refl, IH.
Qed.

Lemma drop_app (p x : string) : PyStr.drop (String.length p) (p ++ x) = x.
Proof. induction p as [|c p IH]; simpl; done. Qed.

Lemma contains_app (p x : string) : PyStr.contains p (p ++ x) = true.
Proof.
  destruct (p ++ x) eqn:E; simpl; rewrite <- E, startswith_app; done.
Qed.

Lemma append_assoc (a b c : string) : (a ++ b) ++ c = a ++ (b ++ c).
Proof.
  induction a as [|x a IH]; [done|].
  change (String x ((a ++ b) ++ c) = String x (a ++ (b ++ c))). by rewrite IH.
Qed.

Lemma replace_first_prefix (p r x : string) :
  PyStr.replace_first p r (p ++ x) = r ++ x.
Proof.
  destruct (p ++ x) eqn:E; simpl; rewrite <- E, startswith_app, drop_app; done.
Qed.


(** X12.  A nested log planned under the original submit directory is
    followed under the current run directory: when the normalised path of
    the job's nested log is the original submit directory, a slash and a
    relative path, the resolver works with the run directory joined with
    that relative path, normalised. *)
Theorem nested_log_moves_to_run_dir
    (w : Workflow) (jobid : string) (info : JobInfo) (s : Z) (j : Job.t)
    (d osd rel : string) :
  _job_info w !! jobid = Some info ->
  is_subdag info = false ->
  _jobs_map w !! jobid = Some s ->
  _jobs w !! (jobid, s) = Some j ->
  Job._job_dagman_out j = Some d ->
  _original_submit_dir w = Some osd ->
  PosixPath.normpath d = osd ++ "/" ++ rel ->
  subworkflow_dagman_out w jobid
  = (Returns (Some (PosixPath.join (_run_dir w) (PosixPath.normpath rel))), w).
Proof.
  intros Hi Hsub Hm Hj Hd Ho Hn.
  unfold subworkflow_dagman_out, find_jobid.
  rewrite Hi, Hsub, Hm, Hj, Hd, Ho, Hn, contains_app.
  rewrite <- (append_assoc osd "/" rel).
  by rewrite (replace_first_prefix (osd ++ "/") "" rel).
Qed.

End SubWorkflowPaths.

(** * Examples *)

Section Examples.

Ltac ev := vm_compute; reflexivity.

Example fmt_03d_examples :
  PyStr.fmt_03d 0 = "000" /\ PyStr.fmt_03d 7 = "007" /\
  PyStr.fmt_03d 42 = "042" /\ PyStr.fmt_03d 1234 = "1234".
Proof. repeat split; reflexivity. Qed.

Example py_int_examples :
  PyStr.py_int "42" = Some 42 /\ PyStr.py_int (" -7" ++ NL) = Some (-7) /\
  PyStr.py_int "" = None /\ PyStr.py_int "4 2" = None /\ PyStr.py_int "+5" = Some 5.
Proof. repeat split; reflexivity. Qed.

(** Construction in the directory with the marker at 5: recovery mode.
    Without a workflow id in the braindump, construction stops. *)
Example init_until_recovery_examples :
  let w := init_until_recovery "/run" "wf.dag.dagman.out" None true false true None false
             {[ "wf_uuid" := "u-1"; "dag" := "wf.dag"; "jsd" := "/submit/jobstate.log" ]}
             sample_fs_recover in
  _wf_uuid w = Some "u-1"
  /\ _original_submit_dir w = Some "/submit"
  /\ _previous_processed_line w = 5
  /\ _last_processed_line w = 0
  /\ _monitord_exit_code
       (init_until_recovery "/run" "wf.dag.dagman.out" None true false true None false
          {[ "dag" := "wf.dag" ]} sample_fs_recover) = 1.
Proof. repeat split; by vm_compute. Qed.

Example posix_path_examples :
  PosixPath.normpath "/a//b/./c/../d.dagman.out" = "/a/b/d.dagman.out"
  /\ PosixPath.dirname "/a/b/c.out" = "/a/b"
  /\ PosixPath.basename "/a/b/c.out" = "c.out"
  /\ PosixPath.join "/a" "b" = "/a/b".
Proof. repeat split; reflexivity. Qed.

(** C2: a Job Instance in PRE_SCRIPT_SUCCESS, a pre-terminal state, with
    scheduler id 1.0 on record; a signal with scheduler id 7.0 is applied
    to that very instance, which takes the new scheduler id and state, and
    no other instance is created. *)
Lemma sched_id_mismatch_counterexample :
  _jobs prescript_wf !! ("A", 1) = Some prescript_job
  /\ pre_terminal prescript_wf "A" prescript_job = true
  /\ bool_decide (Job._sched_id prescript_job = Some "7.0") = false
  /\ fst (find_job_submit_seq prescript_wf "A" (Some "7.0")) = Some 1
  /\ fst (add_job prescript_wf "A" "SUBMIT" (Some "7.0")) = Some 1
  /\ (Job._sched_id <$> _jobs (snd (add_job prescript_wf "A" "SUBMIT" (Some "7.0")))
                          !! ("A", 1)) = Some (Some "7.0")
  /\ (Job._job_state <$> _jobs (snd (add_job prescript_wf "A" "SUBMIT" (Some "7.0")))
                           !! ("A", 1)) = Some (Some "SUBMIT")
  /\ _jobs (snd (add_job prescript_wf "A" "SUBMIT" (Some "7.0"))) !! ("A", 2) = None.
Proof. repeat split; by vm_compute. Qed.

Lemma sched_id_mismatch_creates_fresh_instance_witness :
  fst (find_job_submit_seq submitted_wf "A" (Some "7.0")) = None
  /\ fst (add_job submitted_wf "A" "SUBMIT" (Some "7.0")) = Some 2
  /\ _jobs (snd (add_job submitted_wf "A" "SUBMIT" (Some "7.0"))) !! ("A", 1)
     = Some submitted_job.
Proof.
  pose proof (sched_id_mismatch_creates_fresh_instance
                submitted_wf "A" "SUBMIT" "7.0" 1 submitted_job
                ltac:(ev) ltac:(ev) ltac:(ev) ltac:(ev) ltac:(ev) ltac:(ev))
    as (H1 & H2 & _ & H4 & _).
  exact (conj H1 (conj H2 H4)).
Defined.

(** C3: with the marker at line 5, the (re)start signal read at line 3
    sends its event to the sink, and read at line 5 it also notifies. *)
Lemma recovery_replay_counterexample :
  _replay_mode sample_wf = false
  /\ stored_offset sample_wf sample_fs_recover = Some 5
  /\ sink_calls recovering_wf = []
  /\ map fst (sink_calls (apply_call (set_line 3 recovering_wf) (ChangeWfState "start")))
     = ["xwf.start"]
  /\ notif_calls recovering_wf = []
  /\ notif_calls (apply_call (set_line 5 recovering_wf) (ChangeWfState "start"))
     = [Notif "workflow" "start"].
Proof. repeat split; by vm_compute. Qed.

Lemma recovery_mode_rescans_and_skips_notifications_witness :
  _previous_processed_line recovering_wf = 5
  /\ _last_processed_line recovering_wf = 0
  /\ fst (check_notifications (set_line 3 recovering_wf)) = false.
Proof.
  pose proof (recovery_mode_rescans_and_skips_notifications
                sample_wf sample_fs_recover 5 ltac:(ev) ltac:(ev) ltac:(lia))
    as (H1 & H2 & H3 & _).
  exact (conj H1 (conj H2 (proj1 (H3 3 [] ltac:(lia))))).
Defined.

Lemma output_to_db_failure_disables_sink_witness :
  _database_disabled (output_to_db sample_wf_failing_sink "xwf.start" ∅) = true
  /\ sink_calls (run (output_to_db sample_wf_failing_sink "xwf.start" ∅)
                     [ChangeWfState "start"; OutputToDb "static.end" ∅])
     = [("xwf.start", ∅)].
Proof.
  pose proof (output_to_db_failure_disables_sink
                sample_wf_failing_sink failing_sink "xwf.start" ∅
                [ChangeWfState "start"; OutputToDb "static.end" ∅]
                ltac:(ev) ltac:(ev) ltac:(ev))
    as (H1 & H2 & _ & _ & H5 & _).
  split; [exact H1|]. rewrite H5. exact H2.
Defined.


(** When a name has a finished instance and a later one that is not
    finished, the later one stays in [_jobs]; the entry of the name in
    [_jobs_map] goes with the finished one. *)
Example start_wf_sibling_instance :
  let w := run sample_wf [AddJob "A" "POST_SCRIPT_SUCCESS" None;
                          AddJob "A" "SUBMIT" (Some "2.0")] in
  _jobs (start_wf w) !! ("A", 1) = None
  /\ (Job._sched_id <$> _jobs (start_wf w) !! ("A", 2)) = Some (Some "2.0")
  /\ find_jobid (start_wf w) "A" = None.
Proof. repeat split; by vm_compute. Qed.

(** An instance that is not done is kept by [start_wf]. *)
Example start_wf_keeps_running_job :
  _jobs (start_wf submitted_wf) !! ("A", 1) = Some submitted_job
  /\ _jobs_map (start_wf submitted_wf) !! "A" = Some 1.
Proof. split; by vm_compute. Qed.

(** C6: the job name [A] has no static info, and the first signal for it
    creates the Job Instance (A, 1) without a record in the log. *)
Lemma unknown_job_name_counterexample :
  _job_info sample_wf !! "A" = None
  /\ fst (add_job sample_wf "A" "SUBMIT" (Some "1.0")) = Some 1
  /\ _jobs (snd (add_job sample_wf "A" "SUBMIT" (Some "1.0"))) !! ("A", 1)
     = Some submitted_job
  /\ log (snd (add_job sample_wf "A" "SUBMIT" (Some "1.0"))) = [].
Proof. repeat split; by vm_compute. Qed.

Lemma add_job_does_not_consult_static_info_witness :
  fst (add_job sample_wf "A" "SUBMIT" (Some "1.0")) = Some 1
  /\ has_subworkflow sample_wf subdax_fs "A" (Some ∅) = (Returns None, Some ∅, sample_wf).
Proof.
  pose proof (add_job_does_not_consult_static_info
                sample_wf "A" "SUBMIT" (Some "1.0") ∅ subdax_fs (Some ∅)
                ltac:(ev) ltac:(ev))
    as (H1 & _ & _ & H4).
  exact (conj H1 H4).
Defined.

Lemma has_subworkflow_retry_directory_witness :
  fst (subworkflow_dagman_out subdax_wf "subdax_inner")
  = Returns (Some "/run/inner/inner-0.dag.dagman.out")
  /\ fst (fst (has_subworkflow subdax_wf subdax_fs "subdax_inner" (Some ∅)))
     = Returns (Some "/run/inner.000/inner-0.dag.dagman.out")
  /\ snd (fst (has_subworkflow subdax_wf subdax_fs "subdax_inner" (Some ∅)))
     = Some {[ "/run/inner" := 0 ]}.
Proof.
  pose proof (has_subworkflow_retry_directory
                subdax_wf subdax_fs "subdax_inner" "/run/inner/inner-0.dag.dagman.out"
                ∅ [] ltac:(ev))
    as (H1 & H2 & _).
  split; [ev|]. exact (conj H1 H2).
Defined.

(** At the second encounter the counter is 1; [inner.001] does not exist,
    so the answer falls back to [inner.000]; with no numbered directory at
    all the answer is None. *)
Example has_subworkflow_second_encounter :
  has_subworkflow subdax_wf subdax_fs "subdax_inner" (Some {[ "/run/inner" := 0 ]})
  = (Returns (Some "/run/inner.000/inner-0.dag.dagman.out"),
     Some {[ "/run/inner" := 1 ]},
     logger DEBUG "sub-workflow directory %s does not exist, shifting to rescue mode..."
       ["/run/inner.001"] subdax_wf)
  /\ fst (fst (has_subworkflow subdax_wf (mkFS ∅ ∅ ∅) "subdax_inner" (Some ∅)))
     = Returns None.
Proof. split; by vm_compute. Qed.



(** The marker is left alone at line 3 and holds 9 in the end. *)
Example checkpoint_progress_example :
  snd (checkpoint_progress (recovering_wf, sample_fs_recover) 3) = sample_fs_recover
  /\ stored_offset recovering_wf
       (snd (fold_left checkpoint_progress [3; 5; 9] (recovering_wf, sample_fs_recover)))
     = Some 9.
Proof. split; by vm_compute. Qed.

(** A captured output one byte over the maximum is cut to the maximum and
    the warning is logged; at the maximum it is passed whole. *)
Example output_text_examples :
  PyStr.len (fst (output_text (PyStr.zeros (Z.to_nat 65536)))) = 65535
  /\ snd (output_text (PyStr.zeros (Z.to_nat 65536))) = true
  /\ PyStr.len (fst (output_text (PyStr.zeros (Z.to_nat 65535)))) = 65535
  /\ snd (output_text (PyStr.zeros (Z.to_nat 65535))) = false.
Proof. repeat split; vm_compute; reflexivity. Qed.

(** The properties of runs, of the checkpoint and of the resolver at the
    sample objects. *)
Lemma add_job_returns_a_live_instance_witness :
  index_ok submitted_wf = true
  /\ exists s j,
       fst (add_job submitted_wf "B" "SUBMIT" (Some "2.0")) = Some s
       /\ _jobs (snd (add_job submitted_wf "B" "SUBMIT" (Some "2.0"))) !! ("B", s) = Some j
       /\ Job._sched_id j = Some "2.0".
Proof.
  split; [ev|].
  destruct (add_job_returns_a_live_instance submitted_wf "B" "SUBMIT" (Some "2.0")
              ltac:(ev))
    as (s & j & H1 & H2 & _ & _ & _ & H6 & _).
  exists s, j. exact (conj H1 (conj H2 (H6 "2.0" eq_refl))).
Defined.

Lemma jobs_map_entries_stay_live_witness :
  names_live sample_wf = true
  /\ is_Some (_jobs (run sample_wf first_run) !! ("A", 2))
  /\ update_job_state_find (run sample_wf first_run) "A" None = Some ("A", 2).
Proof.
  split; [ev|].
  pose proof (jobs_map_entries_stay_live sample_wf first_run "A" 2 None
                ltac:(ev) ltac:(ev))
    as (H1 & H2 & _).
  exact (conj H1 H2).
Defined.

Lemma job_counters_count_submit_signals_witness :
  submits "A" first_run = 2%nat
  /\ _job_counters (run sample_wf first_run) !! "A" = Some 1.
Proof.
  split; [ev|].
  exact (proj1 (job_counters_count_submit_signals sample_wf first_run "A" None
                  ltac:(ev))).
Defined.

Lemma checkpoint_is_read_back_witness :
  counters_plain first_run_wf = true
  /\ _job_submit_seq (read_workflow_state sample_wf
                        (snd (write_workflow_state first_run_wf (mkFS ∅ ∅ ∅)))) = 4
  /\ _last_processed_line (read_workflow_state sample_wf
                        (snd (write_workflow_state first_run_wf (mkFS ∅ ∅ ∅)))) = 10.
Proof.
  split; [ev|].
  pose proof (checkpoint_is_read_back first_run_wf sample_wf (mkFS ∅ ∅ ∅)
                ltac:(ev) ltac:(apply not_elem_of_empty) ltac:(ev))
    as (H1 & H2 & _).
  exact (conj (eq_trans H1 ltac:(ev)) (eq_trans H2 ltac:(ev))).
Defined.

Lemma read_workflow_state_stops_at_bad_line_witness :
  read_state_line sample_wf ("garbage" ++ NL) = None
  /\ read_workflow_state sample_wf malformed_checkpoint
     = logger ERROR "error processing state file %s" ["/run/monitord.info"]
         (read_workflow_state sample_wf
            (fs_write "/run/monitord.info"
               ["monitord_job_sequence 3" ++ NL; "A 1" ++ NL] malformed_checkpoint)).
Proof.
  split; [ev|].
  exact (proj1 (read_workflow_state_stops_at_bad_line sample_wf malformed_checkpoint
                  ["monitord_job_sequence 3" ++ NL; "A 1" ++ NL] ["B 0" ++ NL]
                  ("garbage" ++ NL) ltac:(ev) ltac:(ev) ltac:(ev))).
Defined.

Lemma clean_restart_resumes_from_checkpoint_witness :
  _job_submit_seq (restart_from_checkpoint first_run_wf sample_wf (mkFS ∅ ∅ ∅)) = 4
  /\ _restart_count (restart_from_checkpoint first_run_wf sample_wf (mkFS ∅ ∅ ∅)) = 1
  /\ _previous_processed_line
       (restart_from_checkpoint first_run_wf sample_wf (mkFS ∅ ∅ ∅)) = 0.
Proof.
  pose proof (clean_restart_resumes_from_checkpoint first_run_wf sample_wf (mkFS ∅ ∅ ∅)
                ltac:(ev) ltac:(ev) ltac:(ev) ltac:(apply not_elem_of_empty)
                ltac:(ev) ltac:(ev))
    as (H1 & H2 & _ & _ & H5 & _).
  exact (conj (eq_trans H1 ltac:(ev)) (conj (eq_trans H2 ltac:(ev)) H5)).
Defined.

Lemma start_event_reports_earlier_starts_witness :
  _restart_count sample_wf = 0
  /\ sink_calls (change_wf_state sample_wf "start")
     = [("xwf.start",
         <["restart_count" := PInt 0]>
           (<["ts" := PInt 0]> (<["xwf__id" := PNone]> ∅)))].
Proof.
  split; [ev|].
  exact (proj1 (start_event_reports_earlier_starts sample_wf accepting_sink
                  ltac:(ev) ltac:(ev))).
Defined.

Lemma nested_log_moves_to_run_dir_witness :
  subworkflow_dagman_out subdax_wf "subdax_inner"
  = (Returns (Some "/run/inner/inner-0.dag.dagman.out"), subdax_wf).
Proof.
  exact (nested_log_moves_to_run_dir subdax_wf "subdax_inner"
           (mkJobInfo (Some "/run/subdax_inner.sub") None None None None false None None)
           1 subdax_job "/submit/inner/inner-0.dag.dagman.out" "/submit"
           "inner/inner-0.dag.dagman.out"
           ltac:(ev) ltac:(ev) ltac:(ev) ltac:(ev) ltac:(ev) ltac:(ev) ltac:(ev)).
Defined.

End Examples.

